(** * Verification of the logging core of thinkovation/exampleserver

    Shallow embedding of [pkg/logger] (logger.go, swagger.go, the
    webhook plugin and the entry/filter types).

    Conventions:
    - a Go [time.Time] is an instant, modelled as [Z] nanoseconds since the
      Unix epoch (UTC); [Before]/[After] are [<]/[>] on instants;
    - [time.Local] is a fixed-offset zone, [off] seconds east of UTC;
    - a Go [string] is a Rocq [string] (a byte string);
    - a Go [int]/[int64]/[time.Duration] is a [Z] with its 64-bit
      wrap-around written out where the code can overflow. *)

From Stdlib Require Import ZArith String Ascii List Bool Lia.
Import ListNotations.
Open Scope string_scope.
Open Scope list_scope.
Open Scope Z_scope.

Local Notation "s1 +++ s2" := (String.append s1 s2) (at level 60, right associativity).

(** ** Go strings *)

Definition is_digit (c : ascii) : bool :=
  let n := nat_of_ascii c in (Nat.leb 48 n && Nat.leb n 57)%bool.

Definition digit_val (c : ascii) : Z := Z.of_nat (nat_of_ascii c) - 48.

Definition space : ascii := " "%char.

(** [strings.HasPrefix] *)
Fixpoint has_prefix (s pre : string) : bool :=
  match pre, s with
  | EmptyString, _ => true
  | String c pre', String d s' => (Ascii.eqb c d && has_prefix s' pre')%bool
  | String _ _, EmptyString => false
  end.

(** [strings.Contains] *)
Fixpoint contains (s sub : string) : bool :=
  (has_prefix s sub ||
   match s with
   | EmptyString => false
   | String _ s' => contains s' sub
   end)%bool.

(** [strings.SplitN(s, " ", n)] for [n > 0]: at most [n] parts, the last
    one holding the unsplit rest (Go's [genSplit]). *)
Fixpoint split_n_aux (n : nat) (cur : string) (s : string) : list string :=
  match s with
  | EmptyString => [cur]
  | String c s' =>
      if Ascii.eqb c space then
        match n with
        | O | S O => [cur +++ s]
        | S n' => cur :: split_n_aux n' EmptyString s'
        end
      else split_n_aux n (cur +++ String c EmptyString) s'
  end.

Definition split_n (n : nat) (s : string) : list string :=
  match n with
  | O => []
  | _ => split_n_aux n EmptyString s
  end.

(** [strings.Trim(s, cutset)]: drop every leading and trailing byte
    that belongs to [cutset]. *)
Fixpoint in_cutset (c : ascii) (cutset : string) : bool :=
  match cutset with
  | EmptyString => false
  | String d cs => (Ascii.eqb c d || in_cutset c cs)%bool
  end.

Fixpoint trim_left (s cutset : string) : string :=
  match s with
  | String c s' => if in_cutset c cutset then trim_left s' cutset else s
  | EmptyString => EmptyString
  end.

Fixpoint rev_string (s : string) : string :=
  match s with
  | EmptyString => EmptyString
  | String c s' => rev_string s' +++ String c EmptyString
  end.

Definition trim (s cutset : string) : string :=
  rev_string (trim_left (rev_string (trim_left s cutset)) cutset).

(** [bufio.ScanLines] driven by a [bufio.Scanner] (default buffer) over an
    opened file: the file yields the bytes [content], then the error
    [read_err] of its next [Read] ([None]: [io.EOF]).  Tokens end at
    ['\n']; one trailing ['\r'] is dropped from each token; the bytes
    left at the end, when there are some, are a last token.  The buffer
    grows up to [MaxScanTokenSize] bytes: when it is full from the start
    of the current token and holds no newline, [Scan] stops with
    [ErrTooLong].  The result is the tokens [Scan] returned and
    [scanner.Err()]. *)
Definition drop_cr (s : string) : string :=
  match rev_string s with
  | String c r => if Ascii.eqb c (ascii_of_nat 13) then rev_string r else s
  | EmptyString => s
  end.

Definition MaxScanTokenSize : Z := 64 * 1024.

Definition ErrTooLong : string := "bufio.Scanner: token too long".

Fixpoint scan_tokens (read_err : option string) (cur : string) (s : string)
    : list string * option string :=
  if MaxScanTokenSize <=? Z.of_nat (String.length cur) then ([], Some ErrTooLong)
  else
    match s with
    | EmptyString =>
        (match cur with EmptyString => [] | _ => [drop_cr cur] end, read_err)
    | String c s' =>
        if Ascii.eqb c (ascii_of_nat 10) then
          let '(ts, err) := scan_tokens read_err EmptyString s' in (drop_cr cur :: ts, err)
        else scan_tokens read_err (cur +++ String c EmptyString) s'
    end.

Definition scan_file (content : string) (read_err : option string) : list string * option string :=
  scan_tokens read_err EmptyString content.

(** The lines [Scan] returns over a file read to its end. *)
Definition scan_lines (content : string) : list string := fst (scan_file content None).

(** ** 64-bit integers and durations *)

Definition two63 : Z := 2 ^ 63.
Definition wrap64 (z : Z) : Z := (z + two63) mod (2 ^ 64) - two63.

Definition nanosecond : Z := 1.
Definition second : Z := 1000000000.
Definition minute : Z := 60 * second.
Definition hour : Z := 60 * minute.

(** [d1 * d2] on [time.Duration] (an [int64]). *)
Definition dur_mul (d1 d2 : Z) : Z := wrap64 (d1 * d2).

(** [t.Add(d)]: the instant [d] nanoseconds later. *)
Definition time_add (t d : Z) : Z := t + d.

Definition time_before (t u : Z) : bool := t <? u.
Definition time_after (t u : Z) : bool := u <? t.

(** ** Calendar (proleptic Gregorian, as Go's [time] package) *)

Definition days_from_civil (y m d : Z) : Z :=
  let y' := if m <=? 2 then y - 1 else y in
  let era := y' / 400 in
  let yoe := y' - era * 400 in
  let mp := if 2 <? m then m - 3 else m + 9 in
  let doy := (153 * mp + 2) / 5 + d - 1 in
  let doe := yoe * 365 + yoe / 4 - yoe / 100 + doy in
  era * 146097 + doe - 719468.

Definition civil_from_days (days : Z) : Z * Z * Z :=
  let z := days + 719468 in
  let era := z / 146097 in
  let doe := z - era * 146097 in
  let yoe := (doe - doe / 1460 + doe / 36524 - doe / 146096) / 365 in
  let doy := doe - (365 * yoe + yoe / 4 - yoe / 100) in
  let mp := (5 * doy + 2) / 153 in
  let d := doy - (153 * mp + 2) / 5 + 1 in
  let m := if mp <? 10 then mp + 3 else mp - 9 in
  let y := yoe + era * 400 + (if m <=? 2 then 1 else 0) in
  (y, m, d).

Definition is_leap (y : Z) : bool :=
  (Z.eqb (y mod 4) 0 && (negb (Z.eqb (y mod 100) 0) || Z.eqb (y mod 400) 0))%bool.

(** [daysIn(m, year)] *)
Definition days_in (m y : Z) : Z :=
  if Z.eqb m 2 then (if is_leap y then 29 else 28)
  else if (Z.eqb m 4 || Z.eqb m 6 || Z.eqb m 9 || Z.eqb m 11)%bool then 30
  else 31.

(** [time.Date(y, m, d, h, mi, s, ns, loc)] for in-range fields, in the
    zone [off] seconds east of UTC. *)
Definition date (y m d h mi s ns off : Z) : Z :=
  ((days_from_civil y m d * 86400 + h * 3600 + mi * 60 + s) - off) * second + ns.

(** The wall clock of instant [t] in zone [off]:
    [(year, month, day, hour, min, sec)] ([t.Date()] and [t.Clock()]). *)
Definition wall_clock (t off : Z) : Z * Z * Z * Z * Z * Z :=
  let secs := t / second + off in
  let days := secs / 86400 in
  let sod := secs mod 86400 in
  let '(y, m, d) := civil_from_days days in
  (y, m, d, sod / 3600, (sod mod 3600) / 60, sod mod 60).

(** ** [time.Parse] for the two layouts used by [extractTimestamp]

    A layout is a list of chunks: a literal prefix followed by a standard
    element, as [nextStdChunk] cuts it.  Neither layout has a fractional
    second element, so a fraction after the seconds is consumed by the
    special case of [stdZeroSecond]. *)

Inductive std_elem := StdLongYear | StdZeroMonth | StdZeroDay | StdHour | StdZeroMinute | StdZeroSecond.

(** "2006/01/02 15:04:05" *)
Definition layout_full : list (string * std_elem) :=
  [("", StdLongYear); ("/", StdZeroMonth); ("/", StdZeroDay);
   (" ", StdHour); (":", StdZeroMinute); (":", StdZeroSecond)].

(** "15:04:05" *)
Definition layout_clock : list (string * std_elem) :=
  [("", StdHour); (":", StdZeroMinute); (":", StdZeroSecond)].

(** [cutspace] *)
Fixpoint cutspace (s : string) : string :=
  match s with
  | String c s' => if Ascii.eqb c space then cutspace s' else s
  | EmptyString => s
  end.

(** [skip(value, prefix)]: a space in the prefix matches any run of spaces
    (both sides are cut with [cutspace]).  Each round removes at least one
    byte of [prefix], so [length prefix] rounds suffice. *)
Fixpoint skip_rounds (fuel : nat) (value prefix : string) : option string :=
  match fuel with
  | O => None
  | S fuel' =>
      match prefix with
      | EmptyString => Some value
      | String p prefix' =>
          if Ascii.eqb p space then
            match value with
            | String v _ =>
                if Ascii.eqb v space then skip_rounds fuel' (cutspace value) (cutspace prefix)
                else None
            | EmptyString => skip_rounds fuel' (cutspace value) (cutspace prefix)
            end
          else
            match value with
            | String v value' => if Ascii.eqb v p then skip_rounds fuel' value' prefix' else None
            | EmptyString => None
            end
      end
  end.

Definition skip (value prefix : string) : option string :=
  skip_rounds (S (String.length prefix)) value prefix.

(** [getnum(s, fixed)] *)
Definition getnum (s : string) (fixed : bool) : option (Z * string) :=
  match s with
  | String c0 rest =>
      if is_digit c0 then
        match rest with
        | String c1 rest' =>
            if is_digit c1 then Some (digit_val c0 * 10 + digit_val c1, rest')
            else if fixed then None else Some (digit_val c0, rest)
        | EmptyString => if fixed then None else Some (digit_val c0, rest)
        end
      else None
  | EmptyString => None
  end.

(** [stdLongYear]: exactly four digits. *)
Definition long_year (s : string) : option (Z * string) :=
  match s with
  | String a (String b (String c (String d rest))) =>
      if (is_digit a && is_digit b && is_digit c && is_digit d)%bool
      then Some (((digit_val a * 10 + digit_val b) * 10 + digit_val c) * 10 + digit_val d, rest)
      else None
  | _ => None
  end.

(** The run of digits at the front of [s]. *)
Fixpoint digit_run (s : string) : string * string :=
  match s with
  | String c s' =>
      if is_digit c then let '(ds, r) := digit_run s' in (String c ds, r) else (EmptyString, s)
  | EmptyString => (EmptyString, EmptyString)
  end.

Fixpoint digits_value (ds : string) (acc : Z) : Z :=
  match ds with
  | String c ds' => digits_value ds' (acc * 10 + digit_val c)
  | EmptyString => acc
  end.

(** The special case for a fraction after the seconds: [value] starts with
    ['.'] or [','] and a digit; [parseNanoseconds] keeps at most nine digits
    and scales them to nanoseconds. *)
Definition frac_second (value : string) : option (Z * string) :=
  match value with
  | String p (String c rest) =>
      if ((Ascii.eqb p "."%char || Ascii.eqb p ","%char) && is_digit c)%bool then
        let '(ds, r) := digit_run (String c rest) in
        let k := String.length ds in
        let kept := substring 0 (Nat.min k 9) ds in
        Some (digits_value kept 0 * 10 ^ Z.of_nat (9 - Nat.min k 9), r)
      else None
  | _ => None
  end.

(** The fields parsed so far: year, month, day, hour, minute, second,
    nanosecond; month and day are [-1] until set. *)
Record parsed := Parsed { p_year : Z; p_month : Z; p_day : Z; p_hour : Z;
                          p_min : Z; p_sec : Z; p_nsec : Z }.

Definition parsed0 : parsed := Parsed 0 (-1) (-1) 0 0 0 0.

Definition parse_elem (e : std_elem) (value : string) (st : parsed) : option (parsed * string) :=
  match e with
  | StdLongYear =>
      match long_year value with
      | Some (y, r) => Some (Parsed y st.(p_month) st.(p_day) st.(p_hour) st.(p_min) st.(p_sec) st.(p_nsec), r)
      | None => None
      end
  | StdZeroMonth =>
      match getnum value true with
      | Some (m, r) =>
          if (m <=? 0) || (12 <? m) then None
          else Some (Parsed st.(p_year) m st.(p_day) st.(p_hour) st.(p_min) st.(p_sec) st.(p_nsec), r)
      | None => None
      end
  | StdZeroDay =>
      match getnum value true with
      | Some (d, r) => Some (Parsed st.(p_year) st.(p_month) d st.(p_hour) st.(p_min) st.(p_sec) st.(p_nsec), r)
      | None => None
      end
  | StdHour =>
      match getnum value false with
      | Some (h, r) =>
          if (h <? 0) || (24 <=? h) then None
          else Some (Parsed st.(p_year) st.(p_month) st.(p_day) h st.(p_min) st.(p_sec) st.(p_nsec), r)
      | None => None
      end
  | StdZeroMinute =>
      match getnum value true with
      | Some (mi, r) =>
          if (mi <? 0) || (60 <=? mi) then None
          else Some (Parsed st.(p_year) st.(p_month) st.(p_day) st.(p_hour) mi st.(p_sec) st.(p_nsec), r)
      | None => None
      end
  | StdZeroSecond =>
      match getnum value true with
      | Some (s, r) =>
          if (s <? 0) || (60 <=? s) then None
          else
            let st' := Parsed st.(p_year) st.(p_month) st.(p_day) st.(p_hour) st.(p_min) s st.(p_nsec) in
            match frac_second r with
            | Some (ns, r') =>
                Some (Parsed st'.(p_year) st'.(p_month) st'.(p_day) st'.(p_hour) st'.(p_min) s ns, r')
            | None => Some (st', r)
            end
      | None => None
      end
  end.

Fixpoint parse_chunks (layout : list (string * std_elem)) (value : string) (st : parsed)
  : option (parsed * string) :=
  match layout with
  | [] => Some (st, value)
  | (prefix, e) :: layout' =>
      match skip value prefix with
      | Some v =>
          match parse_elem e v st with
          | Some (st', v') => parse_chunks layout' v' st'
          | None => None
          end
      | None => None
      end
  end.

(** [time.Parse(layout, value)]: no zone in the layout, so the result is in
    UTC.  Missing month and day default to January 1st; the day is then
    checked against the month. *)
Definition time_parse (layout : list (string * std_elem)) (value : string) : option parsed :=
  match parse_chunks layout value parsed0 with
  | Some (st, EmptyString) =>
      let m := if st.(p_month) <? 0 then 1 else st.(p_month) in
      let d := if st.(p_day) <? 0 then 1 else st.(p_day) in
      if (d <? 1) || (days_in m st.(p_year) <? d) then None
      else Some (Parsed st.(p_year) m d st.(p_hour) st.(p_min) st.(p_sec) st.(p_nsec))
  | _ => None
  end.

Definition parsed_instant (p : parsed) (off : Z) : Z :=
  date p.(p_year) p.(p_month) p.(p_day) p.(p_hour) p.(p_min) p.(p_sec) p.(p_nsec) off.

(** [extractTimestamp(line)] (swagger.go).  [now] is the instant returned
    by its [time.Now()] call and [off] the offset of [time.Local]. *)
Definition extractTimestamp (now off : Z) (line : string) : option Z :=
  match split_n 3 line with
  | p0 :: p1 :: _ =>
      match time_parse layout_full (p0 +++ " " +++ p1) with
      | Some t => Some (parsed_instant t 0)
      | None =>
          match time_parse layout_clock p0 with
          | Some t =>
              let '(y, mo, d, _, _, _) := wall_clock now off in
              Some (date y mo d t.(p_hour) t.(p_min) t.(p_sec) 0 off)
          | None => None
          end
      end
  | _ => None
  end.

(** ** The log record written by [log.Logger] with [log.LstdFlags]

    [itoa(buf, i, wid)] of the [log] package: decimal digits of [i],
    zero-padded to [wid], built from the right with Go's truncating
    division. *)
Fixpoint itoa_rounds (fuel : nat) (i wid : Z) (acc : string) : string :=
  match fuel with
  | O => acc
  | S fuel' =>
      if (10 <=? i) || (1 <? wid) then
        let q := Z.quot i 10 in
        itoa_rounds fuel' q (wid - 1)
          (String (ascii_of_nat (Z.to_nat ((48 + i - q * 10) mod 256))) acc)
      else String (ascii_of_nat (Z.to_nat ((48 + i) mod 256))) acc
  end.

Definition itoa (i wid : Z) : string := itoa_rounds 20 i wid EmptyString.

(** [fmt]'s [%d] *)
Definition fmt_d (i : Z) : string :=
  if i <? 0 then "-" +++ itoa (- i) 0 else itoa i 0.

(** [formatHeader] with [Ldate|Ltime] in local time:
    "2006/01/02 15:04:05 ". *)
Definition format_header (t off : Z) : string :=
  let '(y, mo, d, h, mi, s) := wall_clock t off in
  itoa y 4 +++ "/" +++ itoa mo 2 +++ "/" +++ itoa d 2 +++ " " +++
  itoa h 2 +++ ":" +++ itoa mi 2 +++ ":" +++ itoa s 2 +++ " ".

Definition newline : string := String (ascii_of_nat 10) EmptyString.

Definition ends_with_newline (s : string) : bool :=
  match rev_string s with
  | String c _ => Ascii.eqb c (ascii_of_nat 10)
  | EmptyString => false
  end.

(** [l.logger.Printf(...)]: the bytes handed to the writer, for the
    formatted message [s], at instant [t] taken by [Output]. *)
Definition log_output (t off : Z) (s : string) : string :=
  format_header t off +++ s +++ (if ends_with_newline s then EmptyString else newline).

(** ** Entries, filters and plugins (entry.go, webhook.go) *)

(** A value of [map[string]any]: a string, or a value of another dynamic
    type (never equal to a string). *)
Inductive field_value := FVString (s : string) | FVOther (tag : nat).

Record LogEntry := {
  Timestamp : Z;
  Level : string;
  Message : string;
  Source : string;
  Line : Z;
  Fields : list (string * field_value)
}.

Record LogFilter := {
  Levels : list string;
  Sources : list string;
  Contains : list string;
  StartTime : option Z;
  EndTime : option Z;
  FieldMatch : list (string * string)
}.

Fixpoint lookup_field (k : string) (fs : list (string * field_value)) : option field_value :=
  match fs with
  | [] => None
  | (k', v) :: fs' => if String.eqb k k' then Some v else lookup_field k fs'
  end.

(** [fieldValue != value] with [fieldValue : any] and [value : string]. *)
Definition field_neq (fv : field_value) (v : string) : bool :=
  match fv with
  | FVString s => negb (String.eqb s v)
  | FVOther _ => true
  end.

Section Matching.

(** [strings.EqualFold] *)
Variable equal_fold : string -> string -> bool.

(** [WebhookPlugin.ShouldHandle]: the filter predicate. *)
Definition should_handle (f : LogFilter) (entry : LogEntry) : bool :=
  let level_ok :=
    match f.(Levels) with
    | [] => true
    | lv => existsb (fun level => equal_fold entry.(Level) level) lv
    end in
  let source_ok :=
    match f.(Sources) with
    | [] => true
    | sv => existsb (fun source => contains entry.(Source) source) sv
    end in
  let contains_ok := forallb (fun substr => contains entry.(Message) substr) f.(Contains) in
  let start_ok :=
    match f.(StartTime) with
    | Some st => negb (time_before entry.(Timestamp) st)
    | None => true
    end in
  let end_ok :=
    match f.(EndTime) with
    | Some et => negb (time_after entry.(Timestamp) et)
    | None => true
    end in
  let fields_ok :=
    forallb (fun kv =>
               match lookup_field (fst kv) entry.(Fields) with
               | Some fv => negb (field_neq fv (snd kv))
               | None => false
               end) f.(FieldMatch) in
  if negb level_ok then false
  else if negb source_ok then false
  else if negb contains_ok then false
  else if negb start_ok then false
  else if negb end_ok then false
  else fields_ok.

End Matching.

(** [strings.EqualFold] on ASCII strings: equal up to ASCII case. *)
Definition ascii_lower (c : ascii) : ascii :=
  let n := nat_of_ascii c in
  if (Nat.leb 65 n && Nat.leb n 90)%bool then ascii_of_nat (n + 32) else c.

Fixpoint ascii_equal_fold (s t : string) : bool :=
  match s, t with
  | EmptyString, EmptyString => true
  | String c s', String d t' => (Ascii.eqb (ascii_lower c) (ascii_lower d) && ascii_equal_fold s' t')%bool
  | _, _ => false
  end.

(** The [LogPlugin] interface.  Errors are [Some message]; [plugin_eq] is
    Go's [==] on the interface values ([p == plugin] in [RemovePlugin]).
    [Handle] (the network delivery) runs in its own goroutine and is
    represented by the event that starts it. *)
Class LogPlugin (P : Type) := {
  ShouldHandle : P -> LogEntry -> bool;
  Initialize : P -> option string;
  Close : P -> option string;
  plugin_eq : P -> P -> bool
}.

(** [*WebhookPlugin]; [wp_ptr] is the pointer's identity. *)
Record WebhookPlugin := {
  wp_ptr : nat;
  URL : string;
  APIKey : string;
  Filter : LogFilter
}.

#[export] Instance webhook_plugin : LogPlugin WebhookPlugin := {
  ShouldHandle w e := should_handle ascii_equal_fold w.(Filter) e;
  Initialize w := if String.eqb w.(URL) "" then Some "webhook URL is required" else None;
  Close w := None;
  plugin_eq w1 w2 := Nat.eqb w1.(wp_ptr) w2.(wp_ptr)
}.

(** ** The logger (logger.go) *)

Section Core.

Context {P : Type} `{LogPlugin P}.

(** What one emission does, in order: a goroutine started to deliver the
    entry to a plugin, or bytes handed to the [io.MultiWriter] (the
    rotating file and, if configured, stdout).  The diagnostic
    [fmt.Println] calls to stdout are left out. *)
Inductive event :=
| EvSpawn (p : P) (e : LogEntry)
| EvWrite (bytes : string).

Record Logger := {
  debug : bool;
  logFile : string;
  plugins : list P
}.

(** The loop over the snapshot [plugins := l.plugins]. *)
Fixpoint dispatch (ps : list P) (entry : LogEntry) : list event :=
  match ps with
  | [] => []
  | p :: ps' => (if ShouldHandle p entry then [EvSpawn p entry] else []) ++ dispatch ps' entry
  end.

(** [(l *Logger) logWithSource(level, format, args...)] with
    [msg = fmt.Sprintf(format, args...)].  [caller] is what
    [runtime.Caller(2)] reports (file already made relative to [$PWD]),
    [t_entry] the instant of [time.Now()] for the entry and [t_write] the
    instant [log.Logger] stamps on the record; [off] is [time.Local]. *)
Definition logWithSource (l : Logger) (off : Z) (caller : option (string * Z))
    (t_entry t_write : Z) (level msg : string) : list event :=
  let '(source, line) :=
    if (String.eqb level "DEBUG" && l.(debug))%bool then
      match caller with Some (file, n) => (file, n) | None => (EmptyString, 0) end
    else (EmptyString, 0) in
  let entry := {| Timestamp := t_entry; Level := level; Message := msg;
                  Source := source; Line := line; Fields := [] |} in
  let body :=
    if negb (String.eqb source EmptyString)
    then "[" +++ level +++ "] " +++ source +++ ":" +++ fmt_d line +++ ": " +++ msg
    else "[" +++ level +++ "] " +++ msg in
  dispatch l.(plugins) entry ++ [EvWrite (log_output t_write off body)].

(** [Debug] returns before doing anything when debug is off. *)
Definition Debug (l : Logger) off caller t_entry t_write msg : list event :=
  if negb l.(debug) then [] else logWithSource l off caller t_entry t_write "DEBUG" msg.

Definition Info (l : Logger) off caller t_entry t_write msg : list event :=
  logWithSource l off caller t_entry t_write "INFO" msg.

(** [AddPlugin]: the plugin list after the call and the returned error. *)
Definition AddPlugin (ps : list P) (p : P) : list P * option string :=
  match Initialize p with
  | Some err => (ps, Some ("failed to initialize plugin: " +++ err))
  | None => (ps ++ [p], None)
  end.

(** The [range l.plugins] loop of [RemovePlugin]: index and element of the
    first plugin equal to [p]. *)
Fixpoint find_plugin (ps : list P) (p : P) (i : nat) : option (nat * P) :=
  match ps with
  | [] => None
  | q :: ps' => if plugin_eq q p then Some (i, q) else find_plugin ps' p (S i)
  end.

(** [RemovePlugin]: [append(l.plugins[:i], l.plugins[i+1:]...)] on success. *)
Definition RemovePlugin (ps : list P) (p : P) : list P * option string :=
  match find_plugin ps p 0 with
  | None => (ps, Some "plugin not found")
  | Some (i, q) =>
      match Close q with
      | Some err => (ps, Some ("failed to close plugin: " +++ err))
      | None => (firstn i ps ++ skipn (S i) ps, None)
      end
  end.

End Core.

Arguments event P : clear implicits.
Arguments Logger P : clear implicits.

(** ** Webhooks of the configuration ([Initialize], config.go;
    [NewWebhookPlugin], webhook.go) *)

Record WebhookConfig := {
  wc_URL : string;
  wc_APIKey : string;
  wc_Filter : LogFilter
}.

(** [NewWebhookPlugin]; [ptr] is the address of the new allocation. *)
Definition NewWebhookPlugin (ptr : nat) (url apiKey : string) (filter : LogFilter) : WebhookPlugin :=
  {| wp_ptr := ptr; URL := url; APIKey := apiKey; Filter := filter |}.

(** The loop over [config.Webhooks] in [Initialize]: the registry, the
    variable [err] after the loop, and the messages handed to
    [defaultLogger.Error].  Allocations get the addresses [next],
    [next+1], ... *)
Fixpoint init_webhooks (next : nat) (ps : list WebhookPlugin) (err : option string)
    (ws : list WebhookConfig) : list WebhookPlugin * option string * list string :=
  match ws with
  | [] => (ps, err, [])
  | wc :: ws' =>
      if String.eqb wc.(wc_URL) EmptyString then init_webhooks next ps err ws'
      else
        let webhook := NewWebhookPlugin next wc.(wc_URL) wc.(wc_APIKey) wc.(wc_Filter) in
        let '(ps1, err1) := AddPlugin ps webhook in
        let logged := match err1 with
                      | Some e => ["Failed to initialize webhook plugin: " +++ e]
                      | None => []
                      end in
        let '(ps2, err2, logged2) := init_webhooks (S next) ps1 err1 ws' in
        (ps2, err2, logged ++ logged2)
  end.

(** ** The debug switch ([SetDebug], logger.go; the [SetDebug] handler,
    swagger.go) *)

Definition SetDebug {P : Type} (l : Logger P) (enabled : bool) : Logger P :=
  {| debug := enabled; logFile := logFile l; plugins := plugins l |}.

(** [fmt]'s [%v] of a [bool]. *)
Definition fmt_v_bool (b : bool) : string := if b then "true" else "false".

(** The handler after the body is decoded ([None]: not valid JSON): the
    status, the settings echoed in the answer, the logger after the call
    and what the call emits. *)
Definition SetDebugHandler {P : Type} `{LogPlugin P} (l : Logger P) (method : string)
    (body : option bool) (off : Z) (caller : option (string * Z)) (t_entry t_write : Z)
    : Z * option bool * Logger P * list (event P) :=
  if negb (String.eqb method "POST") then (405, None, l, [])
  else
    match body with
    | None => (400, None, l, [])
    | Some enabled =>
        let l' := SetDebug l enabled in
        (200, Some enabled, l',
         Info l' off caller t_entry t_write ("Debug logging set to: " +++ fmt_v_bool enabled))
    end.


(** ** Log retrieval ([GetLogs], swagger.go) *)

(** [LogRequest] after decoding: [nil] pointers are [None]. *)
Record LogRequest := {
  FromTime : option Z;
  ToTime : option Z;
  LastLines : option Z;
  LastMinutes : option Z;
  Format : string
}.

Definition set_times (r : LogRequest) (f t : option Z) : LogRequest :=
  {| FromTime := f; ToTime := t; LastLines := r.(LastLines);
     LastMinutes := r.(LastMinutes); Format := r.(Format) |}.

Definition set_last_lines (r : LogRequest) (n : option Z) : LogRequest :=
  {| FromTime := r.(FromTime); ToTime := r.(ToTime); LastLines := n;
     LastMinutes := r.(LastMinutes); Format := r.(Format) |}.

Definition set_format (r : LogRequest) (fmt : string) : LogRequest :=
  {| FromTime := r.(FromTime); ToTime := r.(ToTime); LastLines := r.(LastLines);
     LastMinutes := r.(LastMinutes); Format := fmt |}.

(** The format check: [None] is the 400 answer. *)
Definition validate_format (r : LogRequest) : option LogRequest :=
  if String.eqb r.(Format) "" then Some (set_format r "json")
  else if existsb (String.eqb r.(Format)) ["json"; "jsonpretty"; "csv"; "text"]
  then Some r else None.

(** The three normalisation steps, [now] being the handler's [time.Now()]:
    [last_minutes] ([now.Add(time.Duration(-m) * time.Minute)]), the
    default of 100 lines, and [from_time] one hour before a lone
    [to_time]. *)
Definition normalize (now : Z) (r : LogRequest) : LogRequest :=
  let r1 :=
    match r.(LastMinutes) with
    | Some m => set_times r (Some (time_add now (dur_mul (wrap64 (- m)) minute))) (Some now)
    | None => r
    end in
  let r2 :=
    match r1.(LastLines), r1.(FromTime), r1.(ToTime) with
    | None, None, None => set_last_lines r1 (Some 100)
    | _, _, _ => r1
    end in
  match r2.(FromTime), r2.(ToTime) with
  | None, Some t => set_times r2 (Some (time_add t (-1 * hour))) (Some t)
  | _, _ => r2
  end.

(** The "circular buffer" loop: append, then drop the oldest line when the
    buffer holds more than [n]. *)
Fixpoint tail_scan (n : Z) (buffer : list string) (lines : list string) : list string :=
  match lines with
  | [] => buffer
  | line :: rest =>
      let b := buffer ++ [line] in
      let b' := if n <? Z.of_nat (length b) then tl b else b in
      tail_scan n b' rest
  end.

(** The time-based loop; [now] is the instant seen by [extractTimestamp]'s
    [time.Now()]. *)
Fixpoint range_scan (now off : Z) (from to : option Z) (lines : list string) : list string :=
  match lines with
  | [] => []
  | line :: rest =>
      match extractTimestamp now off line with
      | None => range_scan now off from to rest
      | Some ts =>
          let before_from := match from with Some f => time_before ts f | None => false end in
          let after_to := match to with Some t => time_after ts t | None => false end in
          if before_from then range_scan now off from to rest
          else if after_to then range_scan now off from to rest
          else line :: range_scan now off from to rest
      end
  end.

(** [make([]string, 0, n)] on linux/amd64: [runtime.makeslice] panics
    ("cap out of range") when the [16 * n] bytes of the backing array
    overflow or exceed [maxAlloc] (2^48), in particular for a negative
    [n]; otherwise the allocation fails, and the runtime stops the process
    ("fatal error: runtime: out of memory"), when [16 * n] exceeds [heap],
    the largest block the runtime can still obtain. *)
Definition maxAlloc : Z := 2 ^ 48.

Definition string_header_size : Z := 16.

Inductive selection := Selected (lines : list string) | Panicked | OutOfMemory.

(** The selection of a normalised request over the scanned lines. *)
Definition select_lines (heap now off : Z) (r : LogRequest) (lines : list string) : selection :=
  match r.(LastLines), r.(FromTime) with
  | Some n, None =>
      if (n <? 0) || (maxAlloc <? string_header_size * n) then Panicked
      else if heap <? string_header_size * n then OutOfMemory
      else Selected (tail_scan n [] lines)
  | _, _ => Selected (range_scan now off r.(FromTime) r.(ToTime) lines)
  end.

(** The CSV branch, at the level of records handed to [csv.Writer.Write]. *)
Definition csv_header : list string := ["Timestamp"; "Level"; "Message"].

Definition csv_row (line : string) : list (list string) :=
  match split_n 4 line with
  | p0 :: p1 :: p2 :: p3 :: _ => [[p0 +++ " " +++ p1; trim p2 "[]"; p3]]
  | _ => []
  end.

Definition csv_records (lines : list string) : list (list string) :=
  csv_header :: flat_map csv_row lines.

Inductive response :=
| HttpError (code : Z) (msg : string)
| JsonBody (pretty : bool) (lines : list string)
| CsvBody (records : list (list string))
| TextBody (lines : list string)
| HandlerPanic
| ProcessOutOfMemory.

(** The log file as [os.Open] and the reads see it: [OpenFailed err] when
    [os.Open] returns [err]; [Opened content read_err] when the reads
    yield [content] and then [read_err] ([None]: [io.EOF]). *)
Inductive log_file_state :=
| OpenFailed (err : string)
| Opened (content : string) (read_err : option string).

(** [GetLogs] after the request has been decoded.  [heap] is the memory
    the runtime can still obtain for [make], [now] the handler's
    [time.Now()], [now_scan] the one seen while scanning, [log_file] the
    path from [GetLogFile] and [file] the file behind it. *)
Definition GetLogs (heap now now_scan off : Z) (log_file : string) (file : log_file_state)
    (req : LogRequest) : response :=
  match validate_format req with
  | None => HttpError 400 "Invalid format. Must be one of: json, jsonpretty, csv, text"
  | Some r0 =>
      let r := normalize now r0 in
      if String.eqb log_file "" then HttpError 500 "Log file path not available"
      else
        match file with
        | OpenFailed err => HttpError 500 ("Failed to open log file: " +++ err)
        | Opened content read_err =>
            let '(tokens, scan_err) := scan_file content read_err in
            match select_lines heap now_scan off r tokens with
            | Panicked => HandlerPanic
            | OutOfMemory => ProcessOutOfMemory
            | Selected lines =>
                match scan_err with
                | Some err => HttpError 500 ("Error reading log file: " +++ err)
                | None =>
                    if String.eqb r.(Format) "json" then JsonBody false lines
                    else if String.eqb r.(Format) "jsonpretty" then JsonBody true lines
                    else if String.eqb r.(Format) "csv" then CsvBody (csv_records lines)
                    else TextBody lines
                end
            end
        end
  end.

(** * Properties *)

(** A filter with every field empty. *)
Definition empty_filter : LogFilter :=
  {| Levels := []; Sources := []; Contains := []; StartTime := None;
     EndTime := None; FieldMatch := [] |}.

(** ** Filter matching *)

(** C5: a filter whose every field is empty matches every entry. *)
Theorem should_handle_empty_filter :
  forall (equal_fold : string -> string -> bool) (e : LogEntry),
    should_handle equal_fold empty_filter e = true.
Proof. intros equal_fold e. reflexivity. Qed.

(** C6: with a non-empty [contains] list, a match requires every listed
    substring to occur in the message (logical AND), and one absent
    substring makes the match fail. *)
Theorem should_handle_contains_all :
  forall (equal_fold : string -> string -> bool) (f : LogFilter) (e : LogEntry),
    f.(Contains) <> [] ->
    (should_handle equal_fold f e = true ->
     forall s, In s f.(Contains) -> contains e.(Message) s = true) /\
    ((exists s, In s f.(Contains) /\ contains e.(Message) s = false) ->
     should_handle equal_fold f e = false).
Proof.
  intros equal_fold f e _. unfold should_handle.
  set (lv := match Levels f with [] => true | _ => _ end).
  set (sv := match Sources f with [] => true | _ => _ end).
  split.
  - intros Hm s Hin.
    destruct (negb lv); [discriminate|].
    destruct (negb sv); [discriminate|].
    destruct (forallb _ (Contains f)) eqn:E.
    + rewrite forallb_forall in E. exact (E s Hin).
    + discriminate.
  - intros [s [Hin Hs]].
    destruct (negb lv); [reflexivity|].
    destruct (negb sv); [reflexivity|].
    destruct (forallb _ (Contains f)) eqn:E; [|reflexivity].
    rewrite forallb_forall in E. rewrite (E s Hin) in Hs. discriminate.
Qed.

(** The witness filter of the spec: two substrings, only one occurs. *)
Definition two_substring_filter : LogFilter :=
  {| Levels := []; Sources := []; Contains := ["disk"; "full"]; StartTime := None;
     EndTime := None; FieldMatch := [] |}.

Definition disk_entry : LogEntry :=
  {| Timestamp := 0; Level := "ERROR"; Message := "disk almost empty";
     Source := ""; Line := 0; Fields := [] |}.

Lemma should_handle_contains_all_witness :
  two_substring_filter.(Contains) <> [] /\
  should_handle ascii_equal_fold two_substring_filter disk_entry = false.
Proof.
  split; [discriminate|].
  apply (proj2 (should_handle_contains_all ascii_equal_fold two_substring_filter disk_entry
                  ltac:(discriminate))).
  exists "full". split; [simpl; auto | reflexivity].
Defined.

(** ** The plugin registry *)

Section Registry.

Context {P : Type} `{LogPlugin P}.

Lemma find_plugin_none (ps : list P) (p : P) (i : nat) :
  (forall q, In q ps -> plugin_eq q p = false) -> find_plugin ps p i = None.
Proof.
  revert i. induction ps as [|q ps IH]; intros i Hno; simpl; [reflexivity|].
  rewrite (Hno q (or_introl eq_refl)). apply IH. intros q' Hq'. apply Hno. now right.
Qed.

Lemma find_plugin_some (ps : list P) (p q : P) (i j : nat) :
  find_plugin ps p i = Some (j, q) -> In q ps /\ plugin_eq q p = true.
Proof.
  revert i. induction ps as [|r ps IH]; intros i Hf; simpl in Hf; [discriminate|].
  destruct (plugin_eq r p) eqn:E.
  - injection Hf as <- <-. split; [now left | exact E].
  - destruct (IH _ Hf) as [Hin Heq]. split; [now right | exact Heq].
Qed.

(** C10: [AddPlugin] and [RemovePlugin] leave the plugin list exactly as
    it was whenever they return an error; an [Initialize] error, a plugin
    that is not registered, and a [Close] error each make them return one. *)
Theorem registry_unchanged_on_error :
  forall (ps : list P) (p : P),
    (snd (AddPlugin ps p) <> None -> fst (AddPlugin ps p) = ps) /\
    (snd (RemovePlugin ps p) <> None -> fst (RemovePlugin ps p) = ps) /\
    (Initialize p <> None -> snd (AddPlugin ps p) <> None) /\
    ((forall q, In q ps -> plugin_eq q p = false) -> snd (RemovePlugin ps p) <> None) /\
    ((forall q, In q ps -> plugin_eq q p = true -> Close q <> None) ->
     snd (RemovePlugin ps p) <> None).
Proof.
  intros ps p. unfold AddPlugin, RemovePlugin.
  repeat split.
  - destruct (Initialize p); simpl; [reflexivity | intros Hc; now elim Hc].
  - destruct (find_plugin ps p 0) as [[i q]|]; simpl; [|reflexivity].
    destruct (Close q); simpl; [reflexivity | intros Hc; now elim Hc].
  - intros Hi. destruct (Initialize p); simpl; [discriminate | now elim Hi].
  - intros Hno. rewrite (find_plugin_none ps p 0 Hno). simpl. discriminate.
  - intros Hclose. destruct (find_plugin ps p 0) as [[i q]|] eqn:Ef; simpl; [|discriminate].
    destruct (find_plugin_some _ _ _ _ _ Ef) as [Hin Heq].
    specialize (Hclose q Hin Heq).
    destruct (Close q); simpl; [discriminate | now elim Hclose].
Qed.

End Registry.

(** Plugins identified by a number: number 0 fails to initialise and
    number 2 fails to close. *)
Definition numbered_plugins : LogPlugin nat := {|
  ShouldHandle _ _ := true;
  Initialize n := if Nat.eqb n 0 then Some "no endpoint" else None;
  Close n := if Nat.eqb n 2 then Some "connection busy" else None;
  plugin_eq := Nat.eqb
|}.

Lemma registry_unchanged_on_error_witness :
  @AddPlugin nat numbered_plugins [1; 2]%nat 0%nat = ([1; 2]%nat, Some "failed to initialize plugin: no endpoint") /\
  @RemovePlugin nat numbered_plugins [1; 2]%nat 2%nat = ([1; 2]%nat, Some "failed to close plugin: connection busy") /\
  @RemovePlugin nat numbered_plugins [1; 2]%nat 3%nat = ([1; 2]%nat, Some "plugin not found") /\
  fst (@AddPlugin nat numbered_plugins [1; 2]%nat 0%nat) = [1; 2]%nat /\
  fst (@RemovePlugin nat numbered_plugins [1; 2]%nat 2%nat) = [1; 2]%nat.
Proof.
  destruct (@registry_unchanged_on_error nat numbered_plugins [1; 2]%nat 0%nat) as [Hadd [_ [Hinit _]]].
  destruct (@registry_unchanged_on_error nat numbered_plugins [1; 2]%nat 2%nat) as [_ [Hrem [_ [_ Hclose]]]].
  split; [reflexivity|]. split; [reflexivity|]. split; [reflexivity|].
  split.
  - apply Hadd. apply Hinit. simpl. discriminate.
  - apply Hrem. apply Hclose. intros q Hq Heq.
    destruct Hq as [<-|[<-|[]]]; simpl in *; discriminate.
Defined.

(** ** Order of delivery and write in one emission *)

(** The spec's reading: every delivery is started after a write. *)
Fixpoint delivery_after_write {P : Type} (written : bool) (tr : list (event P)) : bool :=
  match tr with
  | [] => true
  | EvWrite _ :: tr' => delivery_after_write true tr'
  | EvSpawn _ _ :: tr' => (written && delivery_after_write written tr')%bool
  end.

Definition hook_all : WebhookPlugin :=
  {| wp_ptr := 1; URL := "http://localhost:8080/webhook"; APIKey := "key"; Filter := empty_filter |}.

Definition logger_with_hook : Logger WebhookPlugin :=
  {| debug := false; logFile := "logs/app.log"; plugins := [hook_all] |}.

(** C1 (counterexample): with one plugin matching every entry, [Info]
    starts the delivery before the record is written. *)
Lemma delivery_started_before_write :
  delivery_after_write false (Info logger_with_hook 0 None 0 0 "server started") = false.
Proof. vm_compute. reflexivity. Qed.

Lemma dispatch_filter {P : Type} `{LogPlugin P} (ps : list P) (e : LogEntry) :
  dispatch ps e = map (fun p => EvSpawn p e) (filter (fun p => ShouldHandle p e) ps).
Proof.
  induction ps as [|p ps IH]; simpl; [reflexivity|].
  rewrite IH. destruct (ShouldHandle p e); reflexivity.
Qed.

(** C1 (amended): one emission first starts a delivery goroutine for each
    plugin of the snapshot whose filter matches the entry, in registry
    order, and only then writes the record, which is its last step. *)
Theorem deliveries_started_then_record_written :
  forall {P : Type} `{LogPlugin P} (l : Logger P) off caller t_entry t_write level msg,
    exists (entry : LogEntry) (record : string),
      entry.(Timestamp) = t_entry /\ entry.(Level) = level /\ entry.(Message) = msg /\
      logWithSource l off caller t_entry t_write level msg =
        map (fun p => EvSpawn p entry) (filter (fun p => ShouldHandle p entry) l.(plugins))
          ++ [EvWrite record].
Proof.
  intros P HP l off caller t_entry t_write level msg. unfold logWithSource.
  destruct (if (String.eqb level "DEBUG" && debug l)%bool then _ else _) as [source line].
  exists {| Timestamp := t_entry; Level := level; Message := msg;
            Source := source; Line := line; Fields := [] |}.
  eexists. split; [reflexivity|]. split; [reflexivity|]. split; [reflexivity|].
  rewrite dispatch_filter. reflexivity.
Qed.

(** ** Timestamps of written records *)

(** 2024-03-09 09:32:30 UTC. *)
Definition emitted_at : Z := date 2024 3 9 9 32 30 0 0.

Definition plain_logger : Logger WebhookPlugin :=
  {| debug := false; logFile := "logs/app.log"; plugins := [] |}.

(** C2 (code bug): with [time.Local] one hour east of UTC, the record of
    an entry emitted at 09:32:30 UTC carries the local wall clock 10:32:30,
    and [extractTimestamp] reads that back as 10:32:30 UTC, one hour after
    the emission. *)
Theorem extract_timestamp_shifted_by_zone_offset :
  Info plain_logger 3600 None emitted_at emitted_at "hello" =
    [EvWrite ("2024/03/09 10:32:30 [INFO] hello" +++ newline)] /\
  scan_lines ("2024/03/09 10:32:30 [INFO] hello" +++ newline) = ["2024/03/09 10:32:30 [INFO] hello"] /\
  extractTimestamp emitted_at 3600 "2024/03/09 10:32:30 [INFO] hello" = Some (emitted_at + 3600 * second).
Proof. vm_compute. repeat split. Qed.

(** In UTC the same record reads back as the emission instant. *)
Lemma extract_timestamp_in_utc :
  Info plain_logger 0 None emitted_at emitted_at "hello" =
    [EvWrite ("2024/03/09 09:32:30 [INFO] hello" +++ newline)] /\
  extractTimestamp emitted_at 0 "2024/03/09 09:32:30 [INFO] hello" = Some emitted_at.
Proof. vm_compute. repeat split. Qed.

(** ** [last_minutes] *)

Definition req_last_minutes (m : Z) : LogRequest :=
  {| FromTime := Some 0; ToTime := Some 0; LastLines := None;
     LastMinutes := Some m; Format := "json" |}.

(** C4 (code bug): [time.Duration(-m) * time.Minute] wraps around in
    [int64] for [m = 153722868], so [from_time] lands about 292 years after
    [now] instead of [m] minutes before it. *)
Theorem last_minutes_duration_wraps :
  forall now : Z,
    (normalize now (req_last_minutes 153722868)).(FromTime) = Some (now + 9223371993709551616) /\
    (normalize now (req_last_minutes 153722868)).(ToTime) = Some now /\
    (normalize now (req_last_minutes 153722868)).(FromTime) <> Some (now - 153722868 * minute).
Proof.
  intros now.
  assert (Hd : dur_mul (wrap64 (- 153722868)) minute = 9223371993709551616)
    by (vm_compute; reflexivity).
  unfold normalize, req_last_minutes. simpl. rewrite Hd. unfold time_add.
  split; [reflexivity|]. split; [reflexivity|].
  intros Heq. injection Heq. unfold minute, second. lia.
Qed.

Lemma wrap64_small (z : Z) : - two63 <= z < two63 -> wrap64 z = z.
Proof.
  unfold wrap64, two63. intros Hz.
  rewrite Z.mod_small; lia.
Qed.

(** Below the overflow, [last_minutes] sets exactly [now - m] minutes and
    [now], whatever bounds were given. *)
Lemma last_minutes_in_range :
  forall (now m : Z) (r : LogRequest),
    r.(LastMinutes) = Some m -> -153722867 <= m <= 153722867 ->
    (normalize now r).(FromTime) = Some (now - m * minute) /\
    (normalize now r).(ToTime) = Some now.
Proof.
  intros now m r Hm Hrange.
  assert (Hd : dur_mul (wrap64 (- m)) minute = - (m * minute)).
  { unfold dur_mul. rewrite (wrap64_small (- m)) by (unfold two63; lia).
    rewrite wrap64_small by (unfold two63, minute, second; lia).
    unfold minute, second. lia. }
  unfold normalize. rewrite Hm, Hd. simpl.
  destruct (LastLines r); simpl; unfold time_add; split; f_equal; lia.
Qed.

(** ** Tail retrieval *)

(** The last [k] elements of [l] (all of [l] when it is shorter). *)
Definition last_n {A : Type} (k : nat) (l : list A) : list A := skipn (length l - k) l.

Lemma last_n_cons_long {A : Type} (k : nat) (x : A) (l : list A) :
  (k <= length l)%nat -> last_n k (x :: l) = last_n k l.
Proof.
  intros Hk. unfold last_n. simpl length.
  replace (S (length l) - k)%nat with (S (length l - k)) by lia. reflexivity.
Qed.

(** The loop invariant of the buffer: it never holds more than [n] lines,
    and the scan yields the last [n] lines of buffer and rest together. *)
Lemma tail_scan_last_n (n : Z) (buffer lines : list string) :
  0 <= n -> (Z.of_nat (length buffer) <= n) ->
  tail_scan n buffer lines = last_n (Z.to_nat n) (buffer ++ lines).
Proof.
  revert buffer. induction lines as [|x rest IH]; intros buffer Hn Hb; simpl.
  - rewrite app_nil_r. unfold last_n.
    replace (length buffer - Z.to_nat n)%nat with 0%nat by lia. reflexivity.
  - rewrite length_app. simpl length.
    destruct (n <? Z.of_nat (length buffer + 1)) eqn:E.
    + apply Z.ltb_lt in E.
      destruct (buffer ++ [x]) as [|y t] eqn:Eb.
      { destruct buffer; discriminate. }
      assert (Ht : length t = Z.to_nat n).
      { assert (Hl : length (buffer ++ [x]) = S (length t)) by (rewrite Eb; reflexivity).
        rewrite length_app in Hl. simpl in Hl. lia. }
      simpl tl. rewrite IH by lia.
      replace (buffer ++ x :: rest) with (y :: t ++ rest)
        by (rewrite app_comm_cons, <- Eb, <- app_assoc; reflexivity).
      rewrite last_n_cons_long; [reflexivity|].
      rewrite length_app. lia.
    + apply Z.ltb_ge in E.
      rewrite IH by (try rewrite length_app; simpl; lia).
      rewrite <- app_assoc. reflexivity.
Qed.

(** C3 (corrected): with [last_lines = N] and no time bound, when [make]
    can allocate the window of [N] strings ([16 * N] bytes, at most
    [maxAlloc] and at most what the runtime can obtain), the selection is
    the last [N] lines of the file (all of them when it has fewer), in
    file order. *)
Theorem last_lines_tail_bounded :
  forall (heap now now_scan off N : Z) (req : LogRequest) (lines : list string),
    req.(LastLines) = Some N -> req.(FromTime) = None -> req.(ToTime) = None ->
    req.(LastMinutes) = None -> 0 <= N ->
    string_header_size * N <= maxAlloc -> string_header_size * N <= heap ->
    select_lines heap now_scan off (normalize now req) lines = Selected (last_n (Z.to_nat N) lines).
Proof.
  intros heap now now_scan off N req lines HN Hf Ht Hm Hpos Hmax Hheap.
  unfold normalize. rewrite Hm, HN, Hf, Ht. unfold select_lines. rewrite HN, Hf.
  destruct (N <? 0) eqn:E; [apply Z.ltb_lt in E; lia|].
  destruct (maxAlloc <? string_header_size * N) eqn:E'; [apply Z.ltb_lt in E'; lia|].
  destruct (heap <? string_header_size * N) eqn:E''; [apply Z.ltb_lt in E''; lia|].
  rewrite tail_scan_last_n by (simpl; lia). reflexivity.
Qed.

Definition five_lines : list string :=
  ["2024/03/09 10:00:00 [INFO] a"; "2024/03/09 10:00:01 [INFO] b";
   "2024/03/09 10:00:02 [INFO] c"; "2024/03/09 10:00:03 [INFO] d";
   "2024/03/09 10:00:04 [INFO] e"].

Definition req_last_two : LogRequest :=
  {| FromTime := None; ToTime := None; LastLines := Some 2; LastMinutes := None; Format := "json" |}.

Lemma last_lines_tail_bounded_witness :
  select_lines (2 ^ 30) 0 0 (normalize 0 req_last_two) five_lines =
    Selected ["2024/03/09 10:00:03 [INFO] d"; "2024/03/09 10:00:04 [INFO] e"].
Proof.
  rewrite (last_lines_tail_bounded (2 ^ 30) 0 0 0 2 req_last_two five_lines eq_refl eq_refl
             eq_refl eq_refl ltac:(lia) ltac:(vm_compute; discriminate)
             ltac:(vm_compute; discriminate)).
  reflexivity.
Defined.

(** [last_lines = 2^44 + 1], an integer [fmt.Sscanf] accepts, without a
    time bound. *)
Definition req_last_beyond_max_alloc : LogRequest :=
  {| FromTime := None; ToTime := None; LastLines := Some (2 ^ 44 + 1); LastMinutes := None;
     Format := "json" |}.

(** For [last_lines = 2^44 + 1] and no time bound the window of
    [make([]string, 0, n)] would take more than [maxAlloc] bytes: [make]
    panics whatever the memory, the file and its reading. *)
Lemma beyond_max_alloc_panics_everywhere :
  forall (heap now now_scan off : Z) (lines : list string) (content : string)
         (read_err : option string),
    select_lines heap now_scan off (normalize now req_last_beyond_max_alloc) lines = Panicked /\
    GetLogs heap now now_scan off "logs/app.log" (Opened content read_err)
      req_last_beyond_max_alloc = HandlerPanic.
Proof.
  intros heap now now_scan off lines content read_err. split; [reflexivity|].
  unfold GetLogs. simpl. destruct (scan_file content read_err). reflexivity.
Qed.

(** The five lines of the spec's example, as a file. *)
Definition five_lines_file : string :=
  fold_right (fun line acc => line +++ newline +++ acc) EmptyString five_lines.

(** C3, counterexample: over the spec's five-line file, with all the
    memory [maxAlloc] allows, [last_lines = 2^44 + 1] without a time bound
    does not select the file's lines: the handler panics in [make]. *)
Theorem last_lines_beyond_max_alloc_panics :
  scan_lines five_lines_file = five_lines /\
  select_lines maxAlloc 0 0 (normalize 0 req_last_beyond_max_alloc) five_lines = Panicked /\
  GetLogs maxAlloc 0 0 0 "logs/app.log" (Opened five_lines_file None) req_last_beyond_max_alloc =
    HandlerPanic.
Proof.
  split; [vm_compute; reflexivity|].
  apply beyond_max_alloc_panics_everywhere.
Qed.

(** ** Time-range retrieval *)

Lemma range_scan_app (now off : Z) (from to : option Z) (l1 l2 : list string) :
  range_scan now off from to (l1 ++ l2) = range_scan now off from to l1 ++ range_scan now off from to l2.
Proof.
  induction l1 as [|x l1 IH]; simpl; [reflexivity|].
  destruct (extractTimestamp now off x); [|exact IH].
  destruct (match from with Some f => _ | None => false end); [exact IH|].
  destruct (match to with Some t => _ | None => false end); [exact IH|].
  rewrite IH. reflexivity.
Qed.

(** A request has a time bound: an explicit [from_time] or [to_time], or
    [last_minutes]. *)
Definition has_time_bound (req : LogRequest) : Prop :=
  req.(FromTime) <> None \/ req.(ToTime) <> None \/ req.(LastMinutes) <> None.

Lemma normalize_from_time_set (now : Z) (req : LogRequest) :
  has_time_bound req -> (normalize now req).(FromTime) <> None.
Proof.
  destruct req as [f t ll lm fmt]. unfold has_time_bound, normalize. cbn.
  intros Hb. destruct lm, f, t, ll; cbn; try discriminate.
  all: destruct Hb as [Hb|[Hb|Hb]]; now elim Hb.
Qed.

Lemma normalize_bounds_ignore_last_lines (now : Z) (req : LogRequest) (x : option Z) :
  has_time_bound req ->
  (normalize now (set_last_lines req x)).(FromTime) = (normalize now req).(FromTime) /\
  (normalize now (set_last_lines req x)).(ToTime) = (normalize now req).(ToTime).
Proof.
  destruct req as [f t ll lm fmt]. unfold has_time_bound, normalize, set_last_lines. cbn.
  intros Hb. destruct lm, f, t, ll, x; cbn; try (split; reflexivity).
  all: destruct Hb as [Hb|[Hb|Hb]]; now elim Hb.
Qed.

(** C7: in a time-range scan a line whose timestamp cannot be parsed is
    dropped and the scan goes on: the selection is the one of the file
    without that line, and it is a result, never a failure. *)
Theorem unparsable_line_skipped :
  forall (heap now now_scan off : Z) (req : LogRequest) (l1 l2 : list string) (bad : string),
    has_time_bound req ->
    extractTimestamp now_scan off bad = None ->
    select_lines heap now_scan off (normalize now req) (l1 ++ bad :: l2) =
      select_lines heap now_scan off (normalize now req) (l1 ++ l2) /\
    select_lines heap now_scan off (normalize now req) (l1 ++ bad :: l2) =
      Selected (range_scan now_scan off (normalize now req).(FromTime) (normalize now req).(ToTime)
                  (l1 ++ l2)).
Proof.
  intros heap now now_scan off req l1 l2 bad Hb Hbad.
  pose proof (normalize_from_time_set now req Hb) as Hf.
  unfold select_lines.
  destruct (FromTime (normalize now req)) as [f|]; [|now elim Hf].
  assert (Hsel : range_scan now_scan off (Some f) (ToTime (normalize now req)) (l1 ++ bad :: l2) =
                 range_scan now_scan off (Some f) (ToTime (normalize now req)) (l1 ++ l2)).
  { rewrite !range_scan_app. simpl. rewrite Hbad. reflexivity. }
  destruct (LastLines (normalize now req)); rewrite Hsel; split; reflexivity.
Qed.

Definition req_since_ten : LogRequest :=
  {| FromTime := Some (date 2024 3 9 10 0 0 0 0); ToTime := None; LastLines := None;
     LastMinutes := None; Format := "text" |}.

Lemma unparsable_line_skipped_witness :
  select_lines (2 ^ 30) 0 0 (normalize 0 req_since_ten)
    ["2024/03/09 10:00:01 [INFO] a"; "panic: runtime error"; "2024/03/09 10:00:02 [INFO] b"] =
    Selected ["2024/03/09 10:00:01 [INFO] a"; "2024/03/09 10:00:02 [INFO] b"].
Proof.
  assert (Hb : has_time_bound req_since_ten) by (left; discriminate).
  assert (Hx : extractTimestamp 0 0 "panic: runtime error" = None) by (vm_compute; reflexivity).
  pose proof (unparsable_line_skipped (2 ^ 30) 0 0 0 req_since_ten ["2024/03/09 10:00:01 [INFO] a"]
                ["2024/03/09 10:00:02 [INFO] b"] "panic: runtime error" Hb Hx) as [_ H].
  refine (eq_trans H _). vm_compute. reflexivity.
Defined.

(** The range [[from, to]] of the spec, on parsed timestamps. *)
Definition in_range (now off : Z) (from to : option Z) (line : string) : bool :=
  match extractTimestamp now off line with
  | Some ts =>
      ((match from with Some f => f <=? ts | None => true end) &&
       (match to with Some t => ts <=? t | None => true end))%bool
  | None => false
  end.

Lemma range_scan_filter (now off : Z) (from to : option Z) (lines : list string) :
  range_scan now off from to lines = filter (in_range now off from to) lines.
Proof.
  induction lines as [|x rest IH]; simpl; [reflexivity|].
  unfold in_range. destruct (extractTimestamp now off x) as [ts|]; [|exact IH].
  unfold time_before, time_after.
  destruct from as [f|], to as [t|]; simpl;
    repeat match goal with
    | |- context [?a <? ?b] => destruct (a <? b) eqn:?
    | |- context [?a <=? ?b] => destruct (a <=? b) eqn:?
    end; simpl; rewrite ?IH; try reflexivity;
    repeat match goal with
    | H : (_ <? _) = _ |- _ => first [apply Z.ltb_lt in H | apply Z.ltb_ge in H]
    | H : (_ <=? _) = _ |- _ => first [apply Z.leb_le in H | apply Z.leb_gt in H]
    end; lia.
Qed.

(** C9: with [last_lines] and a time bound together, the time-filtered
    full scan is used: every line whose parsed timestamp lies in the
    effective range is selected, with no limit, whatever [last_lines] is. *)
Theorem last_lines_ignored_with_time_bound :
  forall (heap now now_scan off N : Z) (req : LogRequest) (lines : list string),
    req.(LastLines) = Some N -> has_time_bound req ->
    select_lines heap now_scan off (normalize now req) lines =
      Selected (filter (in_range now_scan off (normalize now req).(FromTime) (normalize now req).(ToTime))
                  lines) /\
    select_lines heap now_scan off (normalize now req) lines =
      select_lines heap now_scan off (normalize now (set_last_lines req None)) lines.
Proof.
  intros heap now now_scan off N req lines _ Hb.
  assert (Hsel : forall r, (normalize now r).(FromTime) <> None ->
            select_lines heap now_scan off (normalize now r) lines =
            Selected (filter (in_range now_scan off (normalize now r).(FromTime) (normalize now r).(ToTime))
                        lines)).
  { intros r Hf. unfold select_lines.
    destruct (FromTime (normalize now r)) as [f|]; [|now elim Hf].
    rewrite range_scan_filter. destruct (LastLines (normalize now r)); reflexivity. }
  assert (Hb' : has_time_bound (set_last_lines req None)) by exact Hb.
  destruct (normalize_bounds_ignore_last_lines now req None Hb) as [Ef Et].
  split.
  - apply Hsel. apply normalize_from_time_set. exact Hb.
  - rewrite (Hsel req) by (apply normalize_from_time_set; exact Hb).
    rewrite (Hsel (set_last_lines req None)) by (apply normalize_from_time_set; exact Hb').
    rewrite Ef, Et. reflexivity.
Qed.

Definition req_three_lines_since_ten : LogRequest :=
  {| FromTime := Some (date 2024 3 9 10 0 1 0 0); ToTime := None; LastLines := Some 1;
     LastMinutes := None; Format := "json" |}.

Lemma last_lines_ignored_with_time_bound_witness :
  select_lines (2 ^ 30) 0 0 (normalize 0 req_three_lines_since_ten) five_lines =
    Selected ["2024/03/09 10:00:01 [INFO] b"; "2024/03/09 10:00:02 [INFO] c";
              "2024/03/09 10:00:03 [INFO] d"; "2024/03/09 10:00:04 [INFO] e"].
Proof.
  assert (Hb : has_time_bound req_three_lines_since_ten) by (left; discriminate).
  pose proof (last_lines_ignored_with_time_bound (2 ^ 30) 0 0 0 1 req_three_lines_since_ten five_lines
                eq_refl Hb) as [H _].
  refine (eq_trans H _). vm_compute. reflexivity.
Defined.

(** ** CSV rows *)

(** The spec's reading: tokens delimited by runs of ASCII white space
    ([strings.Fields] on ASCII input). *)
Definition is_white (c : ascii) : bool :=
  let n := nat_of_ascii c in
  (Nat.eqb n 32 || Nat.eqb n 9 || Nat.eqb n 10 || Nat.eqb n 11 || Nat.eqb n 12 || Nat.eqb n 13)%bool.

Fixpoint whitespace_tokens_aux (cur : string) (s : string) : list string :=
  match s with
  | EmptyString => match cur with EmptyString => [] | _ => [cur] end
  | String c s' =>
      if is_white c then
        match cur with
        | EmptyString => whitespace_tokens_aux EmptyString s'
        | _ => cur :: whitespace_tokens_aux EmptyString s'
        end
      else whitespace_tokens_aux (cur +++ String c EmptyString) s'
  end.

Definition whitespace_tokens (s : string) : list string := whitespace_tokens_aux EmptyString s.

(** The record [Info("")] writes: "[INFO] " and an empty message. *)
Definition empty_message_line : string := "2024/03/09 09:32:30 [INFO] ".

(** C8 (counterexample): the record of an empty message has three
    whitespace-delimited tokens, yet it produces a CSV row. *)
Lemma csv_row_for_three_tokens :
  Info plain_logger 0 None emitted_at emitted_at "" = [EvWrite (empty_message_line +++ newline)] /\
  length (whitespace_tokens empty_message_line) = 3%nat /\
  csv_records [empty_message_line] = [csv_header; ["2024/03/09 09:32:30"; "INFO"; ""]].
Proof. vm_compute. repeat split. Qed.

Fixpoint count_spaces (s : string) : nat :=
  match s with
  | EmptyString => 0
  | String c s' => (if Ascii.eqb c space then 1 else 0) + count_spaces s'
  end.

Lemma append_assoc_str (a b c : string) : (a +++ b) +++ c = a +++ (b +++ c).
Proof. induction a as [|x a IH]; simpl; [reflexivity | now rewrite IH]. Qed.

Lemma append_empty_str (a : string) : a +++ EmptyString = a.
Proof. induction a as [|x a IH]; simpl; [reflexivity | now rewrite IH]. Qed.

Lemma split_n_aux_no_space (n : nat) (cur s : string) :
  count_spaces s = 0%nat -> split_n_aux n cur s = [cur +++ s].
Proof.
  revert cur. induction s as [|c s IH]; intros cur Hs; simpl.
  - now rewrite append_empty_str.
  - simpl in Hs. destruct (Ascii.eqb c space); [discriminate|].
    rewrite IH by exact Hs. now rewrite append_assoc_str.
Qed.

Lemma split_n_aux_one (cur s : string) : split_n_aux 1 cur s = [cur +++ s].
Proof.
  revert cur. induction s as [|c s IH]; intros cur; simpl.
  - now rewrite append_empty_str.
  - destruct (Ascii.eqb c space); [reflexivity|].
    rewrite IH. now rewrite append_assoc_str.
Qed.

(** A string with a space is [a ␣ rest] with [a] free of spaces. *)
Lemma first_space (s : string) :
  (1 <= count_spaces s)%nat ->
  exists a rest, count_spaces a = 0%nat /\ s = a +++ " " +++ rest /\
                 count_spaces rest = (count_spaces s - 1)%nat.
Proof.
  induction s as [|c s IH]; simpl; [lia|].
  destruct (Ascii.eqb c space) eqn:Ec; intros Hs.
  - apply Ascii.eqb_eq in Ec. subst c.
    exists EmptyString, s. simpl. repeat split; lia.
  - destruct (IH ltac:(lia)) as [a [rest [Ha [-> Hr]]]].
    exists (String c a), rest. simpl in Hr |- *. rewrite Ec. repeat split; lia.
Qed.

Lemma split_n_aux_space (n : nat) (cur a rest : string) :
  count_spaces a = 0%nat ->
  split_n_aux (S (S n)) cur (a +++ " " +++ rest) = (cur +++ a) :: split_n_aux (S n) EmptyString rest.
Proof.
  revert cur. induction a as [|c a IH]; intros cur Ha; simpl.
  - now rewrite append_empty_str.
  - simpl in Ha. destruct (Ascii.eqb c space); [discriminate|].
    rewrite IH by exact Ha. now rewrite append_assoc_str.
Qed.

(** C8 (amended): the first CSV record is the header; each selected line
    is cut at single space characters into at most four parts
    ([strings.SplitN(line, " ", 4)]).  A line with fewer than three spaces
    produces no record; any other line, written [a ␣ b ␣ c ␣ d] with [a],
    [b], [c] free of spaces, produces the one record
    [(a ␣ b, Trim(c, "[]"), d)]. *)
Theorem csv_rows_split_on_single_spaces :
  forall lines : list string,
    csv_records lines = csv_header :: flat_map csv_row lines /\
    forall line : string,
      ((count_spaces line < 3)%nat -> csv_row line = []) /\
      ((3 <= count_spaces line)%nat ->
       exists a b c d,
         count_spaces a = 0%nat /\ count_spaces b = 0%nat /\ count_spaces c = 0%nat /\
         line = a +++ " " +++ b +++ " " +++ c +++ " " +++ d /\
         csv_row line = [[a +++ " " +++ b; trim c "[]"; d]]).
Proof.
  intros lines. split; [reflexivity|]. intros line. split.
  - intros Hlt. unfold csv_row, split_n.
    destruct (count_spaces line) as [|[|[|k]]] eqn:Ec; [| | |lia].
    + rewrite split_n_aux_no_space by exact Ec. reflexivity.
    + destruct (first_space line ltac:(lia)) as [a [r [Ha [Hl Hr]]]].
      rewrite Hl, split_n_aux_space by exact Ha.
      rewrite split_n_aux_no_space by lia. reflexivity.
    + destruct (first_space line ltac:(lia)) as [a [r [Ha [Hl Hr]]]].
      destruct (first_space r ltac:(lia)) as [b [r2 [Hb [Hl2 Hr2]]]].
      rewrite Hl, split_n_aux_space by exact Ha.
      rewrite Hl2, split_n_aux_space by exact Hb.
      rewrite split_n_aux_no_space by lia. reflexivity.
  - intros Hge.
    destruct (first_space line ltac:(lia)) as [a [r [Ha [Hl Hr]]]].
    destruct (first_space r ltac:(lia)) as [b [r2 [Hb [Hl2 Hr2]]]].
    destruct (first_space r2 ltac:(lia)) as [c [d [Hc [Hl3 Hr3]]]].
    exists a, b, c, d. repeat split; try assumption.
    + rewrite Hl, Hl2, Hl3. reflexivity.
    + unfold csv_row, split_n. rewrite Hl.
      rewrite split_n_aux_space by exact Ha. rewrite Hl2.
      rewrite split_n_aux_space by exact Hb. rewrite Hl3.
      rewrite split_n_aux_space by exact Hc. rewrite split_n_aux_one.
      reflexivity.
Qed.

Lemma csv_rows_split_on_single_spaces_witness :
  csv_row "2024/03/09 10:32:30" = [] /\
  exists a b c d,
    csv_row "2024/03/09 10:32:30 [INFO] disk almost full" = [[a +++ " " +++ b; trim c "[]"; d]].
Proof.
  split.
  - apply (proj1 (proj2 (csv_rows_split_on_single_spaces []) "2024/03/09 10:32:30")).
    vm_compute. lia.
  - destruct (proj2 (proj2 (csv_rows_split_on_single_spaces [])
                       "2024/03/09 10:32:30 [INFO] disk almost full") ltac:(vm_compute; lia))
      as [a [b [c [d [_ [_ [_ [_ H]]]]]]]].
    exists a, b, c, d. exact H.
Defined.

(** * Further properties of the logging core *)

(** ** Calendar facts, checked over one 400-year cycle and extended by
    periodicity *)

Fixpoint all_in (f : Z -> bool) (lo : Z) (n : nat) : bool :=
  match n with O => true | S n' => if f lo then all_in f (lo + 1) n' else false end.

Lemma all_in_spec (f : Z -> bool) (n : nat) :
  forall lo, all_in f lo n = true -> forall x, lo <= x < lo + Z.of_nat n -> f x = true.
Proof.
  induction n as [|n IH]; intros lo H x Hx; simpl in *; [lia|].
  destruct (f lo) eqn:E; [|discriminate].
  destruct (Z.eq_dec x lo) as [->|Hne]; [exact E|].
  apply (IH (lo + 1) H). lia.
Qed.

Definition civil_ok (days : Z) : bool :=
  let '(y, m, d) := civil_from_days days in
  (Z.eqb (days_from_civil y m d) days && (1 <=? m) && (m <=? 12)
   && (1 <=? d) && (d <=? days_in m y))%bool.

Lemma civil_ok_cycle : all_in civil_ok (-719468) (Z.to_nat 146097) = true.
Proof. vm_compute. reflexivity. Qed.

Lemma civil_from_days_period (days k : Z) :
  civil_from_days (days + 146097 * k) =
  let '(y, m, d) := civil_from_days days in (y + 400 * k, m, d).
Proof.
  unfold civil_from_days.
  replace ((days + 146097 * k + 719468) / 146097) with ((days + 719468) / 146097 + k)
    by (rewrite <- Z.div_add by lia; f_equal; ring).
  replace (days + 146097 * k + 719468 - ((days + 719468) / 146097 + k) * 146097)
    with (days + 719468 - (days + 719468) / 146097 * 146097) by ring.
  set (era := (days + 719468) / 146097).
  set (doe := days + 719468 - era * 146097).
  set (yoe := (doe - doe / 1460 + doe / 36524 - doe / 146096) / 365).
  set (doy := doe - (365 * yoe + yoe / 4 - yoe / 100)).
  set (mp := (5 * doy + 2) / 153).
  set (m := if mp <? 10 then mp + 3 else mp - 9).
  f_equal. f_equal. ring.
Qed.

Lemma days_from_civil_period (y m d k : Z) :
  days_from_civil (y + 400 * k) m d = days_from_civil y m d + 146097 * k.
Proof.
  unfold days_from_civil. cbv zeta.
  destruct (m <=? 2);
  [ replace (y + 400 * k - 1) with (y - 1 + k * 400) by ring;
    set (y' := y - 1)
  | replace (y + 400 * k) with (y + k * 400) by ring;
    set (y' := y) ];
  rewrite Z.div_add by lia;
  replace (y' + k * 400 - (y' / 400 + k) * 400) with (y' - y' / 400 * 400) by ring;
  ring.
Qed.

Lemma is_leap_period (y k : Z) : is_leap (y + 400 * k) = is_leap y.
Proof.
  unfold is_leap.
  replace (y + 400 * k) with (y + (100 * k) * 4) by ring. rewrite Z_mod_plus_full.
  replace (y + 100 * k * 4) with (y + (4 * k) * 100) by ring. rewrite Z_mod_plus_full.
  replace (y + 4 * k * 100) with (y + k * 400) by ring. rewrite Z_mod_plus_full.
  reflexivity.
Qed.

Lemma civil_ok_all (days : Z) : civil_ok days = true.
Proof.
  set (k := (days + 719468) / 146097).
  set (r := days - 146097 * k).
  assert (Hr : -719468 <= r < -719468 + 146097).
  { subst r k. pose proof (Z.mod_pos_bound (days + 719468) 146097 ltac:(lia)).
    rewrite Z.mod_eq in H by lia. lia. }
  pose proof (all_in_spec _ _ _ civil_ok_cycle r ltac:(rewrite Z2Nat.id by lia; lia)) as Hok.
  replace days with (r + 146097 * k) by (subst r; ring).
  unfold civil_ok in *. rewrite civil_from_days_period.
  destruct (civil_from_days r) as [[y m] d].
  rewrite days_from_civil_period. unfold days_in in *. rewrite is_leap_period.
  repeat rewrite andb_true_iff in *. rewrite !Z.eqb_eq in *. intuition lia.
Qed.

(** ** Shape of the fixed-width numbers of the record header *)

Definition digit (c : ascii) : bool := (is_digit c && negb (Ascii.eqb c space))%bool.

Definition itoa4_ok (y : Z) : bool :=
  match itoa y 4 with
  | String a (String b (String c (String d EmptyString))) =>
      (digit a && digit b && digit c && digit d &&
       Z.eqb (((digit_val a * 10 + digit_val b) * 10 + digit_val c) * 10 + digit_val d) y)%bool
  | _ => false
  end.

Definition itoa2_ok (x : Z) : bool :=
  match itoa x 2 with
  | String a (String b EmptyString) =>
      (digit a && digit b && Z.eqb (digit_val a * 10 + digit_val b) x)%bool
  | _ => false
  end.

Lemma itoa4_ok_range : all_in itoa4_ok 0 (Z.to_nat 10000) = true.
Proof. vm_compute. reflexivity. Qed.

Lemma itoa2_ok_range : all_in itoa2_ok 0 100 = true.
Proof. vm_compute. reflexivity. Qed.

Lemma itoa4_shape (y : Z) : 0 <= y <= 9999 ->
  exists a b c d, itoa y 4 = String a (String b (String c (String d EmptyString))) /\
    digit a = true /\ digit b = true /\ digit c = true /\ digit d = true /\
    ((digit_val a * 10 + digit_val b) * 10 + digit_val c) * 10 + digit_val d = y.
Proof.
  intros Hy. pose proof (all_in_spec _ _ _ itoa4_ok_range y ltac:(simpl; lia)) as H.
  unfold itoa4_ok in H.
  destruct (itoa y 4) as [|a [|b [|c [|d [|e s]]]]]; try discriminate.
  exists a, b, c, d. repeat rewrite andb_true_iff in H. rewrite Z.eqb_eq in H. tauto.
Qed.

Lemma itoa2_shape (x : Z) : 0 <= x <= 99 ->
  exists a b, itoa x 2 = String a (String b EmptyString) /\
    digit a = true /\ digit b = true /\ digit_val a * 10 + digit_val b = x.
Proof.
  intros Hx. pose proof (all_in_spec _ _ _ itoa2_ok_range x ltac:(simpl; lia)) as H.
  unfold itoa2_ok in H.
  destruct (itoa x 2) as [|a [|b [|c s]]]; try discriminate.
  exists a, b. repeat rewrite andb_true_iff in H. rewrite Z.eqb_eq in H. tauto.
Qed.

(** ** Reading the record header back with [extractTimestamp] *)

Lemma digit_facts (c : ascii) : digit c = true -> is_digit c = true /\ Ascii.eqb c space = false.
Proof. unfold digit. destruct (is_digit c), (Ascii.eqb c space); simpl; intuition discriminate. Qed.

Lemma days_in_le (m y : Z) : days_in m y <= 31.
Proof. unfold days_in. destruct (Z.eqb m 2); [destruct (is_leap y)|destruct (orb _ _)]; lia. Qed.

Lemma split_n_aux_nonspace (n : nat) (cur : string) (c : ascii) (s : string) :
  Ascii.eqb c space = false ->
  split_n_aux n cur (String c s) = split_n_aux n (cur +++ String c EmptyString) s.
Proof. intros H. simpl. now rewrite H. Qed.

Lemma split_n_aux_at_space (n : nat) (cur s : string) :
  split_n_aux (S (S n)) cur (String " " s) = cur :: split_n_aux (S n) EmptyString s.
Proof. reflexivity. Qed.

(** Settle a comparison of the goal that [lia] decides. *)
Ltac decide_cmp :=
  match goal with
  | |- context [?a <=? ?b] =>
      first [rewrite (proj2 (Z.leb_le a b)) by lia | rewrite (proj2 (Z.leb_gt a b)) by lia]
  | |- context [?a <? ?b] =>
      first [rewrite (proj2 (Z.ltb_lt a b)) by lia | rewrite (proj2 (Z.ltb_ge a b)) by lia]
  end.

(** Rewrite with a hypothesis whose left side occurs in the goal. *)
Ltac use_facts :=
  match goal with
  | H : ?x = true |- context [?x] => rewrite H
  | H : ?x = false |- context [?x] => rewrite H
  | H : ?e = _ |- context [?e] => progress (rewrite H)
  end.

(** Split each [digit c = true] into its facts. *)
Ltac digit_hyps :=
  repeat match goal with
  | H : digit ?c = true |- _ => apply digit_facts in H; destruct H
  end.

(** Evaluating [extractTimestamp] on the header byte by byte: the full
    date-time layout succeeds, and reads the local wall clock as UTC. *)
Lemma header_timestamp_round_trip (now' off' t off : Z) (body : string) :
  (let '(y, _, _, _, _, _) := wall_clock t off in 0 <= y <= 9999) ->
  extractTimestamp now' off' (format_header t off +++ body) = Some ((t / second + off) * second).
Proof.
  unfold format_header, wall_clock.
  set (secs := t / second + off).
  set (days := secs / 86400). set (sod := secs mod 86400).
  pose proof (civil_ok_all days) as Hc. unfold civil_ok in Hc.
  destruct (civil_from_days days) as [[y m] d].
  repeat rewrite andb_true_iff in Hc. rewrite Z.eqb_eq in Hc.
  repeat rewrite Z.leb_le in Hc.
  destruct Hc as [[[[Hdays Hm1] Hm2] Hd1] Hd2].
  intros Hy.
  pose proof (days_in_le m y).
  assert (Hsod : 0 <= sod < 86400) by (apply Z.mod_pos_bound; lia).
  destruct (itoa4_shape y Hy) as (y1 & y2 & y3 & y4 & -> & ? & ? & ? & ? & Ey).
  destruct (itoa2_shape m ltac:(lia)) as (m1 & m2 & -> & ? & ? & Em).
  destruct (itoa2_shape d ltac:(lia)) as (d1 & d2 & -> & ? & ? & Ed).
  assert (0 <= sod / 3600 < 24) by (split; [apply Z.div_pos|apply Z.div_lt_upper_bound]; lia).
  pose proof (Z.mod_pos_bound sod 3600 ltac:(lia)).
  assert (0 <= sod mod 3600 / 60 < 60) by (split; [apply Z.div_pos|apply Z.div_lt_upper_bound]; lia).
  pose proof (Z.mod_pos_bound sod 60 ltac:(lia)).
  destruct (itoa2_shape (sod / 3600) ltac:(lia)) as (h1 & h2 & -> & ? & ? & Eh).
  destruct (itoa2_shape (sod mod 3600 / 60) ltac:(lia)) as (i1 & i2 & -> & ? & ? & Ei).
  destruct (itoa2_shape (sod mod 60) ltac:(lia))
    as (s1 & s2 & -> & ? & ? & Es).
  digit_hyps.
  unfold extractTimestamp, split_n.
  simpl String.append.
  repeat (rewrite split_n_aux_nonspace by (assumption || reflexivity)).
  rewrite split_n_aux_at_space.
  repeat (rewrite split_n_aux_nonspace by (assumption || reflexivity)).
  rewrite split_n_aux_at_space.
  unfold time_parse.
  repeat (progress cbn -[days_in date digit_val wall_clock split_n_aux] || use_facts || decide_cmp).
  unfold parsed_instant, date. cbn [p_year p_month p_day p_hour p_min p_sec p_nsec].
  rewrite Hdays. f_equal.
  assert (E1 : sod mod 60 = sod mod 3600 mod 60)
    by (symmetry; apply Z.mod_mod_divide; exists 60; reflexivity).
  pose proof (Z.div_mod secs 86400 ltac:(lia)).
  pose proof (Z.div_mod sod 3600 ltac:(lia)).
  pose proof (Z.div_mod (sod mod 3600) 60 ltac:(lia)).
  lia.
Qed.

(** ** Line structure of a written record *)

Definition lf : ascii := ascii_of_nat 10.
Definition cr : ascii := ascii_of_nat 13.

Fixpoint has_char (c : ascii) (s : string) : bool :=
  match s with
  | EmptyString => false
  | String d s' => (Ascii.eqb d c || has_char c s')%bool
  end.

(** The last byte of [s] is ['\r']. *)
Definition ends_with_cr (s : string) : bool :=
  match rev_string s with
  | String c _ => Ascii.eqb c cr
  | EmptyString => false
  end.

Lemma is_digit_neq (c d : ascii) :
  is_digit c = true -> (nat_of_ascii d < 48 \/ 57 < nat_of_ascii d)%nat -> Ascii.eqb c d = false.
Proof.
  intros Hc Hd. destruct (Ascii.eqb_spec c d) as [->|]; [|reflexivity].
  unfold is_digit in Hc. apply andb_true_iff in Hc as [H1 H2].
  apply Nat.leb_le in H1. apply Nat.leb_le in H2. lia.
Qed.

Lemma has_char_app (c : ascii) (a b : string) :
  has_char c (a +++ b) = (has_char c a || has_char c b)%bool.
Proof. induction a as [|x a IH]; simpl; [reflexivity|]. rewrite IH. apply orb_assoc. Qed.

Lemma rev_string_app (a b : string) : rev_string (a +++ b) = rev_string b +++ rev_string a.
Proof.
  induction a as [|x a IH]; simpl.
  - now rewrite append_empty_str.
  - rewrite IH. apply append_assoc_str.
Qed.

Lemma has_char_rev (c : ascii) (s : string) : has_char c (rev_string s) = has_char c s.
Proof.
  induction s as [|x s IH]; simpl; [reflexivity|].
  rewrite has_char_app, IH. simpl. rewrite orb_false_r. apply orb_comm.
Qed.

Lemma ends_with_newline_no_lf (s : string) :
  has_char lf s = false -> ends_with_newline s = false.
Proof.
  intros Hs. rewrite <- has_char_rev in Hs. unfold ends_with_newline.
  destruct (rev_string s) as [|c r]; [reflexivity|].
  simpl in Hs. apply orb_false_iff in Hs. exact (proj1 Hs).
Qed.

Lemma length_append_str (a b : string) : String.length (a +++ b) = (String.length a + String.length b)%nat.
Proof. induction a as [|x a IH]; simpl; [reflexivity | now rewrite IH]. Qed.

Lemma scan_tokens_line (read_err : option string) (cur x : string) :
  has_char lf x = false ->
  scan_tokens read_err cur (x +++ newline) =
    if Z.of_nat (String.length (cur +++ x)) <? MaxScanTokenSize
    then ([drop_cr (cur +++ x)], read_err) else ([], Some ErrTooLong).
Proof.
  revert cur. induction x as [|c x IH]; intros cur Hx.
  - rewrite append_empty_str. unfold newline. cbn [String.append scan_tokens].
    destruct (MaxScanTokenSize <=? Z.of_nat (String.length cur)) eqn:E.
    + apply Z.leb_le in E. destruct (Z.of_nat (String.length cur) <? MaxScanTokenSize) eqn:E';
        [apply Z.ltb_lt in E'; lia|reflexivity].
    + apply Z.leb_gt in E. rewrite (proj2 (Z.ltb_lt _ _) E).
      rewrite Ascii.eqb_refl. reflexivity.
  - simpl in Hx. apply orb_false_iff in Hx as [Hc Hx].
    cbn [String.append scan_tokens]. unfold lf in Hc. rewrite Hc.
    destruct (MaxScanTokenSize <=? Z.of_nat (String.length cur)) eqn:E.
    + apply Z.leb_le in E. rewrite length_append_str.
      destruct (Z.of_nat (String.length cur + String.length (String c x)) <? MaxScanTokenSize) eqn:E';
        [apply Z.ltb_lt in E'; lia|reflexivity].
    + rewrite IH by exact Hx. now rewrite append_assoc_str.
Qed.

Lemma drop_cr_no_cr (s : string) : ends_with_cr s = false -> drop_cr s = s.
Proof.
  unfold ends_with_cr, drop_cr, cr. destruct (rev_string s) as [|c r]; [reflexivity|].
  intros Hc. now rewrite Hc.
Qed.

Lemma ends_with_cr_app (a b : string) : b <> EmptyString -> ends_with_cr (a +++ b) = ends_with_cr b.
Proof.
  intros Hb. unfold ends_with_cr. rewrite rev_string_app.
  destruct b as [|c b]; [now elim Hb|]. simpl.
  destruct (rev_string b); reflexivity.
Qed.

(** The bytes of [itoa]: decimal digits, for a non-negative number. *)
Lemma itoa_rounds_no_char (c : ascii) (fuel : nat) :
  (nat_of_ascii c < 48 \/ 57 < nat_of_ascii c)%nat ->
  forall i wid acc, 0 <= i -> has_char c acc = false -> has_char c (itoa_rounds fuel i wid acc) = false.
Proof.
  intros Hc. induction fuel as [|fuel IH]; intros i wid acc Hi Hacc; cbn [itoa_rounds]; [exact Hacc|].
  assert (Hd : forall k, 0 <= k <= 9 ->
            Ascii.eqb (ascii_of_nat (Z.to_nat ((48 + k) mod 256))) c = false).
  { intros k Hk. apply is_digit_neq; [|exact Hc].
    rewrite Z.mod_small by lia. unfold is_digit.
    rewrite nat_ascii_embedding by lia. apply andb_true_iff.
    split; apply Nat.leb_le; lia. }
  destruct ((10 <=? i) || (1 <? wid))%bool eqn:Ec.
  - apply IH; [apply Z.quot_pos; lia|]. cbn [has_char].
    pose proof (Z.quot_rem i 10 ltac:(lia)) as Eq.
    pose proof (Z.rem_bound_pos i 10 ltac:(lia) ltac:(lia)) as Hr.
    replace (48 + i - Z.quot i 10 * 10) with (48 + Z.rem i 10) by lia.
    rewrite (Hd (Z.rem i 10)) by lia. exact Hacc.
  - cbn [has_char]. apply orb_false_iff in Ec as [E _]. apply Z.leb_gt in E.
    rewrite (Hd i ltac:(lia)). exact Hacc.
Qed.

Lemma fmt_d_no_char (c : ascii) (i : Z) :
  (nat_of_ascii c < 48 \/ 57 < nat_of_ascii c)%nat -> Ascii.eqb "-"%char c = false ->
  has_char c (fmt_d i) = false.
Proof.
  intros Hc Hm. unfold fmt_d, itoa. destruct (i <? 0) eqn:E.
  - apply Z.ltb_lt in E. cbn [String.append has_char]. rewrite Hm. cbn [orb].
    apply itoa_rounds_no_char; [exact Hc | lia | reflexivity].
  - apply Z.ltb_ge in E. apply itoa_rounds_no_char; [exact Hc | lia | reflexivity].
Qed.


(** The header "YYYY/MM/DD hh:mm:ss ": a date and a clock without spaces
    or line ends, each followed by one space. *)
Definition stamp (t off : Z) : string :=
  let '(y, mo, d, h, mi, s) := wall_clock t off in
  itoa y 4 +++ "/" +++ itoa mo 2 +++ "/" +++ itoa d 2 +++ " " +++
  itoa h 2 +++ ":" +++ itoa mi 2 +++ ":" +++ itoa s 2.

Lemma header_shape (t off : Z) :
  (let '(y, _, _, _, _, _) := wall_clock t off in 0 <= y <= 9999) ->
  exists date clock,
    format_header t off = date +++ " " +++ clock +++ " " /\
    stamp t off = date +++ " " +++ clock /\
    count_spaces date = 0%nat /\ count_spaces clock = 0%nat /\
    has_char lf date = false /\ has_char lf clock = false.
Proof.
  unfold format_header, stamp, wall_clock.
  set (secs := t / second + off).
  set (days := secs / 86400). set (sod := secs mod 86400).
  pose proof (civil_ok_all days) as Hc. unfold civil_ok in Hc.
  destruct (civil_from_days days) as [[y m] d].
  repeat rewrite andb_true_iff in Hc. rewrite Z.eqb_eq in Hc.
  repeat rewrite Z.leb_le in Hc.
  destruct Hc as [[[[Hdays Hm1] Hm2] Hd1] Hd2].
  intros Hy.
  pose proof (days_in_le m y).
  assert (Hsod : 0 <= sod < 86400) by (apply Z.mod_pos_bound; lia).
  assert (0 <= sod / 3600 < 24) by (split; [apply Z.div_pos|apply Z.div_lt_upper_bound]; lia).
  pose proof (Z.mod_pos_bound sod 3600 ltac:(lia)).
  assert (0 <= sod mod 3600 / 60 < 60) by (split; [apply Z.div_pos|apply Z.div_lt_upper_bound]; lia).
  pose proof (Z.mod_pos_bound sod 60 ltac:(lia)).
  destruct (itoa4_shape y Hy) as (y1 & y2 & y3 & y4 & -> & ? & ? & ? & ? & _).
  destruct (itoa2_shape m ltac:(lia)) as (m1 & m2 & -> & ? & ? & _).
  destruct (itoa2_shape d ltac:(lia)) as (d1 & d2 & -> & ? & ? & _).
  destruct (itoa2_shape (sod / 3600) ltac:(lia)) as (h1 & h2 & -> & ? & ? & _).
  destruct (itoa2_shape (sod mod 3600 / 60) ltac:(lia)) as (i1 & i2 & -> & ? & ? & _).
  destruct (itoa2_shape (sod mod 60) ltac:(lia)) as (s1 & s2 & -> & ? & ? & _).
  digit_hyps.
  exists (String y1 (String y2 (String y3 (String y4 (String "/" (String m1 (String m2
            (String "/" (String d1 (String d2 EmptyString)))))))))).
  exists (String h1 (String h2 (String ":" (String i1 (String i2 (String ":"
            (String s1 (String s2 EmptyString)))))))).
  repeat match goal with H : is_digit ?c = true |- _ =>
    pose proof (is_digit_neq c lf H ltac:(left; vm_compute; lia)); clear H end.
  cbn [String.append count_spaces has_char]. repeat use_facts. repeat split.
Qed.

Lemma empty_append_str (a : string) : EmptyString +++ a = a.
Proof. reflexivity. Qed.

Lemma ends_with_cr_app_false (a b : string) :
  ends_with_cr b = false -> (b = EmptyString -> ends_with_cr a = false) -> ends_with_cr (a +++ b) = false.
Proof.
  intros Hb Ha. destruct b as [|c b].
  - rewrite append_empty_str. now apply Ha.
  - rewrite ends_with_cr_app by discriminate. exact Hb.
Qed.

(** The last byte of a concatenation ending in known bytes is not ['\r']. *)
Ltac no_cr_end :=
  repeat (apply ends_with_cr_app_false;
          [| let E := fresh in intros E;
             first [ reflexivity
                   | exfalso; apply (f_equal String.length) in E;
                     rewrite ?length_append_str in E; simpl in E; lia ] ]);
  try assumption.

(** The record written for [msg] at [t_write] is one scanned line. *)
Lemma record_line (t off : Z) (body : string) :
  (let '(y, _, _, _, _, _) := wall_clock t off in 0 <= y <= 9999) ->
  has_char lf body = false -> ends_with_cr body = false ->
  log_output t off body = (format_header t off +++ body) +++ newline /\
  forall read_err,
    scan_file ((format_header t off +++ body) +++ newline) read_err =
      if Z.of_nat (String.length (format_header t off +++ body)) <? MaxScanTokenSize
      then ([format_header t off +++ body], read_err) else ([], Some ErrTooLong).
Proof.
  intros Hy Hlf Hcr.
  destruct (header_shape t off Hy) as (date & clock & Eh & _ & _ & _ & Hd & Hc).
  split.
  { unfold log_output. rewrite (ends_with_newline_no_lf body Hlf), append_assoc_str. reflexivity. }
  intros read_err. unfold scan_file. rewrite scan_tokens_line.
  - rewrite empty_append_str.
    destruct (Z.of_nat (String.length (format_header t off +++ body)) <? MaxScanTokenSize);
      [|reflexivity].
    rewrite drop_cr_no_cr; [reflexivity|].
    apply ends_with_cr_app_false; [exact Hcr|].
    intros ->. rewrite Eh. no_cr_end.
  - rewrite has_char_app, Eh, !has_char_app, Hd, Hc, Hlf. reflexivity.
Qed.

Definition no_lf_callers (caller : option (string * Z)) : Prop :=
  forall file n, caller = Some (file, n) -> has_char lf file = false.

(** A record without line breaks is written as one line ending in a
    newline.  The scanner reads it back as that line when it has fewer than
    [MaxScanTokenSize] bytes and stops with [ErrTooLong] otherwise; the
    line's timestamp reads back as the write instant, to the second,
    shifted by the zone offset. *)
Theorem written_record_read_back {P : Type} `{LogPlugin P} (l : Logger P) (off : Z)
    (caller : option (string * Z)) (t_entry t_write : Z) (level msg : string) (now' off' : Z)
    (read_err : option string) :
  (let '(y, _, _, _, _, _) := wall_clock t_write off in 0 <= y <= 9999) ->
  has_char lf level = false -> has_char lf msg = false -> ends_with_cr msg = false ->
  no_lf_callers caller ->
  exists spawns line,
    logWithSource l off caller t_entry t_write level msg = spawns ++ [EvWrite (line +++ newline)] /\
    scan_file (line +++ newline) read_err =
      (if Z.of_nat (String.length line) <? MaxScanTokenSize
       then ([line], read_err) else ([], Some ErrTooLong)) /\
    extractTimestamp now' off' line = Some ((t_write / second + off) * second).
Proof.
  intros Hy Hlv Hmsg Hcr Hcall. unfold logWithSource.
  destruct (if (String.eqb level "DEBUG" && debug l)%bool then _ else _) as [source line] eqn:Es.
  assert (Hsrc : has_char lf source = false).
  { destruct (String.eqb level "DEBUG" && debug l)%bool.
    - destruct caller as [[file n]|]; injection Es as <- <-; [|reflexivity].
      exact (Hcall file n eq_refl).
    - injection Es as <- <-. reflexivity. }
  set (body := if negb (String.eqb source EmptyString) then _ else _).
  assert (Hb : has_char lf body = false /\ ends_with_cr body = false).
  { unfold body. destruct (negb (String.eqb source EmptyString)).
    - split.
      + rewrite !has_char_app, Hlv, Hsrc, Hmsg.
        rewrite (fmt_d_no_char lf line ltac:(left; vm_compute; lia) ltac:(reflexivity)).
        vm_compute. reflexivity.
      + no_cr_end.
    - split.
      + rewrite !has_char_app, Hlv, Hmsg. vm_compute. reflexivity.
      + no_cr_end. }
  destruct Hb as [Hblf Hbcr].
  destruct (record_line t_write off body Hy Hblf Hbcr) as [Eo Es'].
  exists (dispatch (plugins l) {| Timestamp := t_entry; Level := level; Message := msg;
                                  Source := source; Line := line; Fields := [] |}).
  exists (format_header t_write off +++ body).
  split; [now rewrite Eo|]. split; [exact (Es' read_err)|].
  apply header_timestamp_round_trip. exact Hy.
Qed.

(** ** What an emission carries *)

Lemma should_handle_fields (ef : string -> string -> bool) (f : LogFilter) (e : LogEntry) :
  should_handle ef f e = true -> Fields e = [] -> FieldMatch f = [].
Proof.
  intros Hs He. unfold should_handle in Hs. rewrite He in Hs.
  destruct (negb _) in Hs; [discriminate|].
  destruct (negb _) in Hs; [discriminate|].
  destruct (negb _) in Hs; [discriminate|].
  destruct (negb _) in Hs; [discriminate|].
  destruct (negb _) in Hs; [discriminate|].
  destruct (FieldMatch f) as [|kv fm]; [reflexivity|]. discriminate.
Qed.

Lemma contains_empty (sub : string) : contains EmptyString sub = true -> sub = EmptyString.
Proof. destruct sub; simpl; [reflexivity | discriminate]. Qed.

Lemma should_handle_sources (ef : string -> string -> bool) (f : LogFilter) (e : LogEntry) :
  should_handle ef f e = true -> Sources f <> [] ->
  exists src, In src (Sources f) /\ contains (Source e) src = true.
Proof.
  intros Hs Hne. unfold should_handle in Hs.
  destruct (negb _) in Hs; [discriminate|].
  destruct (Sources f) as [|s0 sv]; [now elim Hne|].
  destruct (existsb (fun source => contains (Source e) source) (s0 :: sv)) eqn:E.
  - apply existsb_exists in E. exact E.
  - simpl in Hs. discriminate.
Qed.

Lemma in_emission {P : Type} `{LogPlugin P} (l : Logger P) off caller t_entry t_write level msg p e :
  In (EvSpawn p e) (logWithSource l off caller t_entry t_write level msg) ->
  In p (plugins l) /\ ShouldHandle p e = true /\ Fields e = [] /\
  Level e = level /\ Message e = msg /\ Timestamp e = t_entry /\
  (Source e = EmptyString \/
   (String.eqb level "DEBUG" && debug l = true)%bool /\
   exists n, caller = Some (Source e, n) /\ Line e = n).
Proof.
  unfold logWithSource.
  destruct (if (String.eqb level "DEBUG" && debug l)%bool then _ else _) as [source line] eqn:Es.
  intros Hin. apply in_app_or in Hin as [Hin|[Hin|[]]]; [|discriminate].
  rewrite dispatch_filter in Hin. apply in_map_iff in Hin as [q [Eq Hq]].
  injection Eq as <- <-. apply filter_In in Hq as [Hq Hsh].
  repeat split; try assumption; try reflexivity. simpl.
  destruct (String.eqb level "DEBUG" && debug l)%bool eqn:Ed.
  - destruct caller as [[file n]|]; injection Es as <- <-; [|now left].
    right. split; [reflexivity|]. exists n. split; reflexivity.
  - injection Es as <- <-. now left.
Qed.

(** Outside debug mode, or for a level other than DEBUG, the entry has
    no source and the record is "[LEVEL] msg", whatever the caller. *)
Theorem plain_record_outside_debug {P : Type} `{LogPlugin P} (l : Logger P) (off : Z)
    (caller : option (string * Z)) (t_entry t_write : Z) (level msg : string) :
  (level <> "DEBUG" \/ debug l = false) ->
  logWithSource l off caller t_entry t_write level msg =
    dispatch (plugins l) {| Timestamp := t_entry; Level := level; Message := msg;
                            Source := EmptyString; Line := 0; Fields := [] |}
      ++ [EvWrite (log_output t_write off ("[" +++ level +++ "] " +++ msg))].
Proof.
  intros Hl. unfold logWithSource.
  assert (E : (String.eqb level "DEBUG" && debug l)%bool = false).
  { destruct Hl as [Hl|Hl].
    - apply String.eqb_neq in Hl. now rewrite Hl.
    - rewrite Hl. apply andb_false_r. }
  rewrite E. reflexivity.
Qed.

(** A webhook whose filter has a [field_match] entry never receives an
    entry: [logWithSource] builds every entry without fields. *)
Theorem field_match_never_delivered (l : Logger WebhookPlugin) (off : Z)
    (caller : option (string * Z)) (t_entry t_write : Z) (level msg : string)
    (w : WebhookPlugin) (e : LogEntry) :
  In (EvSpawn w e) (logWithSource l off caller t_entry t_write level msg) ->
  FieldMatch (Filter w) = [].
Proof.
  intros Hin.
  destruct (in_emission l off caller t_entry t_write level msg w e Hin) as (_ & Hs & Hf & _).
  exact (should_handle_fields _ _ _ Hs Hf).
Qed.

(** A webhook whose [sources] list is non-empty and has no empty string
    receives only DEBUG entries emitted in debug mode with a caller, and
    the entry's source contains one of the listed sources. *)
Theorem source_filter_only_debug (l : Logger WebhookPlugin) (off : Z)
    (caller : option (string * Z)) (t_entry t_write : Z) (level msg : string)
    (w : WebhookPlugin) (e : LogEntry) :
  In (EvSpawn w e) (logWithSource l off caller t_entry t_write level msg) ->
  Sources (Filter w) <> [] -> ~ In EmptyString (Sources (Filter w)) ->
  level = "DEBUG" /\ debug l = true /\
  exists n src, caller = Some (Source e, n) /\ In src (Sources (Filter w)) /\
                contains (Source e) src = true.
Proof.
  intros Hin Hne Hno.
  destruct (in_emission l off caller t_entry t_write level msg w e Hin)
    as (_ & Hs & _ & _ & _ & _ & Hsrc).
  destruct (should_handle_sources _ _ _ Hs Hne) as [src [Hsin Hc]].
  destruct Hsrc as [E|[Hd [n [Hc' _]]]].
  - rewrite E in Hc. apply contains_empty in Hc. subst src. contradiction.
  - apply andb_true_iff in Hd as [Hd1 Hd2]. apply String.eqb_eq in Hd1.
    split; [exact Hd1|]. split; [exact Hd2|]. exists n, src. auto.
Qed.

(** ** Time bounds of a filter are inclusive *)

Definition time_window (a b : Z) : LogFilter :=
  {| Levels := []; Sources := []; Contains := []; StartTime := Some a;
     EndTime := Some b; FieldMatch := [] |}.

Theorem time_window_inclusive (ef : string -> string -> bool) (a b : Z) (e : LogEntry) :
  should_handle ef (time_window a b) e = ((a <=? Timestamp e) && (Timestamp e <=? b))%bool.
Proof.
  unfold should_handle, time_window, time_before, time_after. simpl.
  destruct (Timestamp e <? a) eqn:E1; destruct (b <? Timestamp e) eqn:E2;
  destruct (a <=? Timestamp e) eqn:E3; destruct (Timestamp e <=? b) eqn:E4;
  simpl; try reflexivity; lia.
Qed.

(** ** The registry *)

Section RegistryMore.

Context {P : Type} `{LogPlugin P}.

Lemma find_plugin_skip (pre rest : list P) (p : P) (i : nat) :
  (forall q, In q pre -> plugin_eq q p = false) ->
  find_plugin (pre ++ rest) p i = find_plugin rest p (i + length pre).
Proof.
  revert i. induction pre as [|q pre IH]; intros i Hno; simpl.
  - now rewrite Nat.add_0_r.
  - rewrite (Hno q (or_introl eq_refl)). rewrite IH by (intros q' Hq'; apply Hno; now right).
    f_equal. lia.
Qed.

(** [RemovePlugin] takes out the first registered plugin equal to the
    argument, and only that one. *)
Theorem remove_first_equal (pre post : list P) (q p : P) :
  (forall r, In r pre -> plugin_eq r p = false) ->
  plugin_eq q p = true -> Close q = None ->
  RemovePlugin (pre ++ q :: post) p = (pre ++ post, None).
Proof.
  intros Hno Hq Hc. unfold RemovePlugin.
  rewrite find_plugin_skip by exact Hno. rewrite Nat.add_0_l. cbn [find_plugin].
  rewrite Hq. cbv beta iota. rewrite Hc.
  rewrite firstn_app, skipn_app, Nat.sub_diag, firstn_all, firstn_O, app_nil_r.
  rewrite (skipn_all2 pre) by lia.
  replace (S (length pre) - length pre)%nat with 1%nat by lia. reflexivity.
Qed.

(** Adding a plugin and removing it again restores the registry. *)
Theorem add_then_remove (ps : list P) (p : P) :
  Initialize p = None -> Close p = None -> plugin_eq p p = true ->
  (forall q, In q ps -> plugin_eq q p = false) ->
  AddPlugin ps p = (ps ++ [p], None) /\ RemovePlugin (fst (AddPlugin ps p)) p = (ps, None).
Proof.
  intros Hi Hc Hp Hno. unfold AddPlugin. rewrite Hi. split; [reflexivity|]. simpl.
  unfold RemovePlugin. rewrite find_plugin_skip by exact Hno. rewrite Nat.add_0_l.
  cbn [find_plugin]. rewrite Hp. cbv beta iota. rewrite Hc.
  rewrite firstn_app, Nat.sub_diag, firstn_all, firstn_O, app_nil_r.
  rewrite skipn_all2; [now rewrite app_nil_r|]. rewrite length_app. simpl. lia.
Qed.

End RegistryMore.

(** ** Retrieval: defaults, errors, panics *)

Definition request (fmt : string) : LogRequest :=
  {| FromTime := None; ToTime := None; LastLines := None; LastMinutes := None; Format := fmt |}.

Definition request_since_ten (fmt : string) : LogRequest :=
  set_times (request fmt) (Some (date 2024 3 9 10 0 0 0 0)) None.

(** The lines of a file: the bytes between newlines, the last one
    possibly empty. *)
Fixpoint segments_from (cur : string) (s : string) : list string :=
  match s with
  | EmptyString => [cur]
  | String c s' =>
      if Ascii.eqb c lf then cur :: segments_from EmptyString s'
      else segments_from (cur +++ String c EmptyString) s'
  end.

(** Every line of the file, ['\r'] included, is shorter than the
    scanner's limit. *)
Definition lines_fit (content : string) : bool :=
  forallb (fun seg => Z.of_nat (String.length seg) <? MaxScanTokenSize)
    (segments_from EmptyString content).

Lemma segments_from_no_lf (cur s : string) :
  has_char lf s = false -> segments_from cur s = [cur +++ s].
Proof.
  revert cur. induction s as [|c s IH]; intros cur Hs; simpl.
  - now rewrite append_empty_str.
  - simpl in Hs. apply orb_false_iff in Hs as [Hc Hs]. rewrite Hc, IH by exact Hs.
    now rewrite append_assoc_str.
Qed.

Lemma segments_from_head (cur s : string) :
  exists rest tl, segments_from cur s = (cur +++ rest) :: tl.
Proof.
  revert cur. induction s as [|c s IH]; intros cur; simpl.
  - exists EmptyString, []. now rewrite append_empty_str.
  - destruct (Ascii.eqb c lf).
    + exists EmptyString, (segments_from EmptyString s). now rewrite append_empty_str.
    + destruct (IH (cur +++ String c EmptyString)) as (rest & tl & E).
      exists (String c EmptyString +++ rest), tl. rewrite E, append_assoc_str. reflexivity.
Qed.

Lemma scan_tokens_fst (read_err : option string) (cur s : string) :
  fst (scan_tokens read_err cur s) = fst (scan_tokens None cur s).
Proof.
  revert cur. induction s as [|c s IH]; intros cur; simpl;
    destruct (MaxScanTokenSize <=? Z.of_nat (String.length cur)); try reflexivity.
  destruct (Ascii.eqb c (ascii_of_nat 10)); [|apply IH].
  specialize (IH EmptyString).
  destruct (scan_tokens read_err EmptyString s), (scan_tokens None EmptyString s).
  simpl in *. now rewrite IH.
Qed.

Lemma scan_tokens_snd (read_err : option string) (cur s : string) :
  snd (scan_tokens read_err cur s) =
    if forallb (fun seg => Z.of_nat (String.length seg) <? MaxScanTokenSize) (segments_from cur s)
    then read_err else Some ErrTooLong.
Proof.
  revert cur. induction s as [|c s IH]; intros cur.
  - simpl. destruct (MaxScanTokenSize <=? Z.of_nat (String.length cur)) eqn:E.
    + apply Z.leb_le in E.
      destruct (Z.of_nat (String.length cur) <? MaxScanTokenSize) eqn:E';
        [apply Z.ltb_lt in E'; lia|reflexivity].
    + apply Z.leb_gt in E. rewrite (proj2 (Z.ltb_lt _ _) E). reflexivity.
  - cbn [scan_tokens segments_from]. unfold lf.
    destruct (MaxScanTokenSize <=? Z.of_nat (String.length cur)) eqn:E.
    + apply Z.leb_le in E.
      assert (Hcur : forall rest, (Z.of_nat (String.length (cur +++ rest)) <? MaxScanTokenSize) = false).
      { intros rest. apply Z.ltb_ge. rewrite length_append_str. lia. }
      destruct (Ascii.eqb c (ascii_of_nat 10)).
      * simpl. specialize (Hcur EmptyString). rewrite append_empty_str in Hcur.
        now rewrite Hcur.
      * destruct (segments_from_head (cur +++ String c EmptyString) s) as (rest & tl & ->).
        simpl. rewrite append_assoc_str, Hcur. reflexivity.
    + apply Z.leb_gt in E. destruct (Ascii.eqb c (ascii_of_nat 10)).
      * specialize (IH EmptyString).
        destruct (scan_tokens read_err EmptyString s) as [ts err]. simpl in *.
        rewrite (proj2 (Z.ltb_lt _ _) E). exact IH.
      * apply IH.
Qed.

(** What [GetLogs] gets from the scanner: the lines of [scan_lines], and
    [ErrTooLong] when a line reaches the limit, otherwise the read error. *)
Lemma scan_file_eq (content : string) (read_err : option string) :
  scan_file content read_err =
    (scan_lines content, if lines_fit content then read_err else Some ErrTooLong).
Proof.
  unfold scan_lines, scan_file, lines_fit.
  rewrite <- (scan_tokens_fst read_err), <- (scan_tokens_snd read_err).
  destruct (scan_tokens read_err EmptyString content). reflexivity.
Qed.

(** A request without parameters answers the last 100 lines as JSON, as
    long as the window of 100 strings can be allocated; a file with a line
    of 64 KiB or more is answered with status 500 instead. *)
Theorem default_request_last_hundred (heap now now_scan off : Z) (log_file content : string) :
  log_file <> EmptyString -> string_header_size * 100 <= heap ->
  GetLogs heap now now_scan off log_file (Opened content None) (request EmptyString) =
    if lines_fit content then JsonBody false (last_n 100 (scan_lines content))
    else HttpError 500 ("Error reading log file: " +++ ErrTooLong).
Proof.
  intros Hf Hheap. apply String.eqb_neq in Hf.
  unfold GetLogs. rewrite scan_file_eq. cbn -[String.eqb lines_fit scan_lines]. rewrite Hf.
  unfold select_lines. cbn -[lines_fit scan_lines].
  unfold string_header_size in Hheap.
  destruct (heap <? 1600) eqn:E; [apply Z.ltb_lt in E; lia|].
  rewrite tail_scan_last_n by (simpl; lia).
  destruct (lines_fit content); reflexivity.
Qed.

(** A lone [to_time] selects the hour up to it; a lone [from_time] has no
    upper bound and no line limit (a file read to its end whose lines fit
    the scanner). *)
Theorem lone_bounds (heap now now_scan off : Z) (log_file content : string) (t : Z) :
  log_file <> EmptyString -> lines_fit content = true ->
  GetLogs heap now now_scan off log_file (Opened content None)
    (set_times (request "text") None (Some t)) =
    TextBody (filter (in_range now_scan off (Some (t - hour)) (Some t)) (scan_lines content)) /\
  GetLogs heap now now_scan off log_file (Opened content None)
    (set_times (request "text") (Some t) None) =
    TextBody (filter (in_range now_scan off (Some t) None) (scan_lines content)).
Proof.
  intros Hf Hfit. apply String.eqb_neq in Hf.
  unfold GetLogs. rewrite !scan_file_eq, Hfit. cbn -[String.eqb scan_lines]. rewrite Hf.
  unfold select_lines. cbn -[scan_lines range_scan].
  rewrite !range_scan_filter. unfold time_add.
  replace (t + -1 * hour) with (t - hour) by lia. split; reflexivity.
Qed.

Definition accepted_formats : list string := [""; "json"; "jsonpretty"; "csv"; "text"].

Lemma validate_accepted (r : LogRequest) :
  In (Format r) accepted_formats -> exists r', validate_format r = Some r' /\
    FromTime r' = FromTime r /\ ToTime r' = ToTime r /\ LastLines r' = LastLines r /\
    LastMinutes r' = LastMinutes r.
Proof.
  intros Hin. unfold validate_format.
  destruct r as [f t n m fmt]; simpl in *.
  destruct Hin as [<-|[<-|[<-|[<-|[<-|[]]]]]]; simpl; eexists; repeat split.
Qed.

(** A negative [last_lines] without a time bound makes the handler panic
    ([make] with a negative capacity), whatever the file holds and however
    its reading ends. *)
Theorem negative_last_lines_panics (heap now now_scan off : Z) (log_file content fmt : string)
    (read_err : option string) (n : Z) :
  In fmt accepted_formats -> log_file <> EmptyString -> n < 0 ->
  GetLogs heap now now_scan off log_file (Opened content read_err)
    (set_last_lines (request fmt) (Some n)) = HandlerPanic.
Proof.
  intros Hfmt Hf Hn. apply String.eqb_neq in Hf. unfold GetLogs.
  destruct (validate_accepted (set_last_lines (request fmt) (Some n)) Hfmt)
    as (r' & -> & Ef & Et & El & Em).
  simpl in Ef, Et, El, Em. cbv zeta. rewrite Hf, scan_file_eq.
  unfold normalize. rewrite Em, El, Ef, Et. unfold select_lines. cbn [LastLines FromTime].
  rewrite El, Ef, (proj2 (Z.ltb_lt n 0) Hn). reflexivity.
Qed.

(** The checks come in order: an unknown format is refused before the log
    file is looked at; a missing log path is reported before the file is
    opened; a file that cannot be opened is reported, with the error of
    [os.Open], before any line is selected. *)
Theorem error_precedence (heap now now_scan off : Z) (log_file : string) (file : log_file_state)
    (r : LogRequest) :
  (~ In (Format r) accepted_formats ->
   GetLogs heap now now_scan off log_file file r =
     HttpError 400 "Invalid format. Must be one of: json, jsonpretty, csv, text") /\
  (In (Format r) accepted_formats -> log_file = EmptyString ->
   GetLogs heap now now_scan off log_file file r = HttpError 500 "Log file path not available") /\
  (forall err, In (Format r) accepted_formats -> log_file <> EmptyString -> file = OpenFailed err ->
   GetLogs heap now now_scan off log_file file r = HttpError 500 ("Failed to open log file: " +++ err)).
Proof.
  unfold GetLogs. split; [|split].
  - intros Hno. unfold validate_format.
    destruct (String.eqb (Format r) "") eqn:E0.
    { apply String.eqb_eq in E0. elim Hno. rewrite E0. now left. }
    destruct (existsb (String.eqb (Format r)) _) eqn:E1; [|reflexivity].
    apply existsb_exists in E1 as [x [Hx Ex]]. apply String.eqb_eq in Ex.
    elim Hno. rewrite Ex. right. exact Hx.
  - intros Hin ->. destruct (validate_accepted r Hin) as (r' & -> & _). reflexivity.
  - intros err Hin Hf ->. apply String.eqb_neq in Hf.
    destruct (validate_accepted r Hin) as (r' & -> & _). rewrite Hf. reflexivity.
Qed.

(** With a time bound, a scanner error is answered with status 500 and
    the scanner's error: [ErrTooLong] as soon as a line of the file reaches
    64 KiB, whatever the later reads return; otherwise the error of the
    read that ended the file. *)
Theorem scan_error_answers_500 (heap now now_scan off : Z) (log_file content : string)
    (read_err : option string) (r : LogRequest) :
  In (Format r) accepted_formats -> log_file <> EmptyString -> has_time_bound r ->
  (lines_fit content = false ->
   GetLogs heap now now_scan off log_file (Opened content read_err) r =
     HttpError 500 ("Error reading log file: " +++ ErrTooLong)) /\
  (forall e, lines_fit content = true -> read_err = Some e ->
   GetLogs heap now now_scan off log_file (Opened content read_err) r =
     HttpError 500 ("Error reading log file: " +++ e)).
Proof.
  intros Hfmt Hf Hb. apply String.eqb_neq in Hf.
  destruct (validate_accepted r Hfmt) as (r' & Ev & Ef & Et & El & Em).
  assert (Hb' : has_time_bound r') by (unfold has_time_bound in *; rewrite Ef, Et, Em; exact Hb).
  pose proof (normalize_from_time_set now r' Hb') as Hn.
  unfold GetLogs. rewrite Ev. cbv zeta. rewrite Hf, scan_file_eq.
  unfold select_lines. destruct (FromTime (normalize now r')) as [f|]; [|now elim Hn].
  split.
  - intros Hfit. rewrite Hfit. destruct (LastLines (normalize now r')); reflexivity.
  - intros e Hfit ->. rewrite Hfit. destruct (LastLines (normalize now r')); reflexivity.
Qed.

(** ** CSV export of a written record *)

Definition plain_levels : list string := ["INFO"; "WARN"; "ERROR"; "FATAL"].

(** The CSV record of a line "[LEVEL] msg" written at [t] is the local
    date and clock, the level without brackets, and the whole message,
    spaces included. *)
Theorem csv_row_of_record (t off : Z) (level msg : string) :
  (let '(y, _, _, _, _, _) := wall_clock t off in 0 <= y <= 9999) ->
  In level plain_levels ->
  csv_row (format_header t off +++ "[" +++ level +++ "] " +++ msg) = [[stamp t off; level; msg]].
Proof.
  intros Hy Hl.
  destruct (header_shape t off Hy) as (date & clock & Eh & Es & Hd & Hc & _ & _).
  rewrite Eh, Es.
  assert (Eb : "[" +++ level +++ "] " +++ msg = ("[" +++ level +++ "]") +++ " " +++ msg)
    by (rewrite !append_assoc_str; reflexivity).
  rewrite !append_assoc_str, Eb.
  unfold csv_row, split_n.
  rewrite (split_n_aux_space 2 _ date) by exact Hd.
  rewrite (split_n_aux_space 1 _ clock) by exact Hc.
  rewrite (split_n_aux_space 0 _ ("[" +++ level +++ "]")).
  2: { destruct Hl as [<-|[<-|[<-|[<-|[]]]]]; reflexivity. }
  rewrite split_n_aux_one, !empty_append_str.
  f_equal. f_equal. f_equal.
  destruct Hl as [<-|[<-|[<-|[<-|[]]]]]; reflexivity.
Qed.

(** ** The webhooks registered by [Initialize] *)

Definition configured (w : WebhookPlugin) : string * string * LogFilter :=
  (URL w, APIKey w, Filter w).

Definition requested (wc : WebhookConfig) : string * string * LogFilter :=
  (wc_URL wc, wc_APIKey wc, wc_Filter wc).

Definition has_url (wc : WebhookConfig) : bool := negb (String.eqb (wc_URL wc) EmptyString).

Lemma init_webhooks_spec (ws : list WebhookConfig) :
  forall next ps err,
  let '(ps', err', logged) := init_webhooks next ps err ws in
  exists added,
    ps' = ps ++ added /\
    map configured added = map requested (filter has_url ws) /\
    NoDup (map wp_ptr added) /\ (forall x, In x (map wp_ptr added) -> (next <= x)%nat) /\
    err' = (if existsb has_url ws then None else err) /\ logged = [].
Proof.
  induction ws as [|wc ws IH]; intros next ps err; simpl.
  - exists []. rewrite app_nil_r. repeat split; [constructor | intros x []].
  - cbn [init_webhooks filter existsb].
    destruct (String.eqb (wc_URL wc) EmptyString) eqn:Eu.
    + replace (has_url wc) with false by (unfold has_url; now rewrite Eu).
      cbn [orb]. apply IH.
    + replace (has_url wc) with true by (unfold has_url; now rewrite Eu).
      cbn [orb]. unfold AddPlugin. cbn [Initialize webhook_plugin NewWebhookPlugin URL].
      rewrite Eu.
      specialize (IH (S next) (ps ++ [NewWebhookPlugin next (wc_URL wc) (wc_APIKey wc) (wc_Filter wc)]) None).
      destruct (init_webhooks _ _ _ ws) as [[ps2 err2] logged2].
      destruct IH as (added & -> & Ecfg & Hnd & Hge & Eerr & ->).
      exists (NewWebhookPlugin next (wc_URL wc) (wc_APIKey wc) (wc_Filter wc) :: added).
      split; [now rewrite <- app_assoc|].
      split; [simpl; now rewrite Ecfg|].
      split.
      { simpl. constructor; [|exact Hnd]. intros Hin. specialize (Hge _ Hin). lia. }
      split.
      { intros x [<-|Hin]; [simpl; lia|]. specialize (Hge _ Hin). lia. }
      split; [|reflexivity]. rewrite Eerr. now destruct (existsb has_url ws).
Qed.

(** [Initialize] registers, in configuration order, one webhook for each
    configured webhook with a non-empty URL, each a distinct plugin; the
    others are skipped, no registration fails, and the loop leaves [err]
    nil. *)
Theorem initialize_registers_configured_webhooks (ws : list WebhookConfig) (next : nat) :
  let '(ps, err, logged) := init_webhooks next [] None ws in
  map configured ps = map requested (filter has_url ws) /\
  NoDup (map wp_ptr ps) /\ err = None /\ logged = [].
Proof.
  pose proof (init_webhooks_spec ws next [] None) as Hs.
  destruct (init_webhooks next [] None ws) as [[ps err] logged].
  destruct Hs as (added & -> & Ecfg & Hnd & _ & Eerr & ->).
  simpl. repeat split; try assumption. rewrite Eerr. now destruct (existsb has_url ws).
Qed.

(** ** The debug switch *)

(** Switching debug off through the handler silences [Debug]; switching
    it on makes [Debug] write "[DEBUG] file:line: msg" with the caller's
    position in the entry.  Either way the switch itself is announced by
    one INFO record, and a request that is not a POST, or whose body does
    not decode, leaves the logger as it was. *)
Theorem set_debug_handler {P : Type} `{LogPlugin P} (l : Logger P) (enabled : bool)
    (off : Z) (caller caller' : option (string * Z)) (t_entry t_write t_entry' t_write' : Z)
    (msg method : string) (body : option bool) :
  (let '(status, echo, l', evs) := SetDebugHandler l "POST" (Some enabled) off caller t_entry t_write in
   status = 200 /\ echo = Some enabled /\ debug l' = enabled /\ plugins l' = plugins l /\
   evs = dispatch (plugins l)
           {| Timestamp := t_entry; Level := "INFO";
              Message := "Debug logging set to: " +++ fmt_v_bool enabled;
              Source := EmptyString; Line := 0; Fields := [] |}
         ++ [EvWrite (log_output t_write off
                        ("[INFO] Debug logging set to: " +++ fmt_v_bool enabled))] /\
   (enabled = false -> Debug l' off caller' t_entry' t_write' msg = []) /\
   (enabled = true -> forall file n, file <> EmptyString -> caller' = Some (file, n) ->
      Debug l' off caller' t_entry' t_write' msg =
        dispatch (plugins l)
          {| Timestamp := t_entry'; Level := "DEBUG"; Message := msg;
             Source := file; Line := n; Fields := [] |}
        ++ [EvWrite (log_output t_write' off
                       ("[DEBUG] " +++ file +++ ":" +++ fmt_d n +++ ": " +++ msg))])) /\
  (method <> "POST" \/ body = None ->
   let '(status, _, l', evs) := SetDebugHandler l method body off caller t_entry t_write in
   (status = 405 \/ status = 400) /\ l' = l /\ evs = []).
Proof.
  split.
  - unfold SetDebugHandler. simpl.
    repeat split.
    + intros ->. reflexivity.
    + intros -> file n Hf ->. unfold Debug, logWithSource. simpl.
      apply String.eqb_neq in Hf. rewrite Hf. reflexivity.
  - intros Hm. unfold SetDebugHandler.
    destruct (String.eqb method "POST") eqn:Em; simpl.
    + destruct Hm as [Hm | ->]; [apply String.eqb_eq in Em; contradiction|].
      repeat split. now right.
    + repeat split. now left.
Qed.

(** ** Lines that start with a bare clock *)

Lemma split_n_aux_cons (n : nat) (cur s : string) : exists a tl, split_n_aux n cur s = a :: tl.
Proof.
  revert n cur. induction s as [|c s IH]; intros n cur; simpl; [eauto|].
  destruct (Ascii.eqb c space); [destruct n as [|[|n]]; eauto|]. apply IH.
Qed.

(** A line that starts with "hh:mm:ss " is dated on the local day of
    [now], at that clock in the local zone. *)
Theorem clock_line_dated_today (now off h mi s : Z) (rest : string) :
  0 <= h < 24 -> 0 <= mi < 60 -> 0 <= s < 60 ->
  extractTimestamp now off (itoa h 2 +++ ":" +++ itoa mi 2 +++ ":" +++ itoa s 2 +++ " " +++ rest) =
    let '(y, mo, d, _, _, _) := wall_clock now off in Some (date y mo d h mi s 0 off).
Proof.
  intros Hh Hi Hs.
  destruct (itoa2_shape h ltac:(lia)) as (h1 & h2 & -> & ? & ? & Eh).
  destruct (itoa2_shape mi ltac:(lia)) as (i1 & i2 & -> & ? & ? & Ei).
  destruct (itoa2_shape s ltac:(lia)) as (s1 & s2 & -> & ? & ? & Es).
  digit_hyps.
  unfold extractTimestamp, split_n.
  simpl String.append.
  repeat (rewrite split_n_aux_nonspace by (assumption || reflexivity)).
  rewrite split_n_aux_at_space.
  destruct (split_n_aux_cons 2 EmptyString rest) as (p1 & tl & ->).
  unfold time_parse.
  repeat (progress cbn -[days_in date digit_val wall_clock split_n_aux] || use_facts || decide_cmp).
  destruct (wall_clock now off) as [[[[[y mo] d] ?] ?] ?]. reflexivity.
Qed.

(** ** Round trip of the record timestamp *)

(** The timestamp of a record written at [t] in zone [off] reads back as
    [t] cut to the second and moved by [off] seconds: the local wall clock
    is read as if it were UTC. *)
Theorem record_timestamp_round_trip (now' off' t off : Z) (body : string) :
  (let '(y, _, _, _, _, _) := wall_clock t off in 0 <= y <= 9999) ->
  extractTimestamp now' off' (format_header t off +++ body) = Some ((t / second + off) * second).
Proof. exact (header_timestamp_round_trip now' off' t off body). Qed.

(** * Concrete instances *)

(** 2024-03-09 09:32:30 UTC. *)
Definition sample_instant : Z := date 2024 3 9 9 32 30 0 0.

Lemma sample_year : wall_clock sample_instant 3600 = (2024, 3, 9, 10, 32, 30).
Proof. vm_compute. reflexivity. Qed.

Definition sample_hook : WebhookPlugin :=
  {| wp_ptr := 7; URL := "http://localhost:9000/hook"; APIKey := "k"; Filter := empty_filter |}.

Definition sample_logger : Logger WebhookPlugin :=
  {| debug := true; logFile := "logs/app.log"; plugins := [sample_hook] |}.

Definition sample_entry : LogEntry :=
  {| Timestamp := sample_instant; Level := "INFO"; Message := "ready";
     Source := EmptyString; Line := 0; Fields := [] |}.

(** Plugins that always initialise and close. *)
Definition plain_plugins : LogPlugin nat := {|
  ShouldHandle _ _ := true;
  Initialize _ := None;
  Close _ := None;
  plugin_eq := Nat.eqb
|}.

Lemma record_timestamp_round_trip_witness :
  extractTimestamp 0 0 (format_header sample_instant 3600 +++ "[INFO] ready") =
    Some (sample_instant + 3600 * second).
Proof.
  refine (eq_trans (record_timestamp_round_trip 0 0 sample_instant 3600 "[INFO] ready" _) _).
  - rewrite sample_year. simpl. lia.
  - vm_compute. reflexivity.
Defined.

Lemma written_record_read_back_witness :
  exists spawns line,
    logWithSource sample_logger 3600 None sample_instant sample_instant "INFO" "ready" =
      spawns ++ [EvWrite (line +++ newline)] /\
    scan_file (line +++ newline) None =
      (if Z.of_nat (String.length line) <? MaxScanTokenSize
       then ([line], None) else ([], Some ErrTooLong)) /\
    extractTimestamp 0 0 line = Some ((sample_instant / second + 3600) * second).
Proof.
  apply written_record_read_back.
  - rewrite sample_year. simpl. lia.
  - reflexivity.
  - reflexivity.
  - reflexivity.
  - intros file n E. discriminate E.
Defined.

Lemma plain_record_outside_debug_witness :
  logWithSource sample_logger 0 (Some ("main.go", 12)) 0 0 "INFO" "ready" =
    dispatch (plugins sample_logger)
      {| Timestamp := 0; Level := "INFO"; Message := "ready";
         Source := EmptyString; Line := 0; Fields := [] |}
      ++ [EvWrite (log_output 0 0 ("[" +++ "INFO" +++ "] " +++ "ready"))].
Proof. apply plain_record_outside_debug. left. discriminate. Defined.

Lemma field_match_never_delivered_witness :
  In (EvSpawn sample_hook sample_entry)
     (logWithSource sample_logger 0 None sample_instant 0 "INFO" "ready") /\
  FieldMatch (Filter sample_hook) = [].
Proof.
  assert (Hin : In (EvSpawn sample_hook sample_entry)
                   (logWithSource sample_logger 0 None sample_instant 0 "INFO" "ready"))
    by (left; reflexivity).
  split; [exact Hin|].
  exact (field_match_never_delivered sample_logger 0 None sample_instant 0 "INFO" "ready"
           sample_hook sample_entry Hin).
Defined.

Definition debug_hook : WebhookPlugin :=
  {| wp_ptr := 8; URL := "http://localhost:9000/hook"; APIKey := "k";
     Filter := {| Levels := []; Sources := ["auth"]; Contains := []; StartTime := None;
                  EndTime := None; FieldMatch := [] |} |}.

Definition debug_logger : Logger WebhookPlugin :=
  {| debug := true; logFile := "logs/app.log"; plugins := [debug_hook] |}.

Definition debug_entry : LogEntry :=
  {| Timestamp := 0; Level := "DEBUG"; Message := "token checked";
     Source := "internal/auth/authenticator.go"; Line := 42; Fields := [] |}.

Lemma source_filter_only_debug_witness :
  "DEBUG" = "DEBUG" /\ debug debug_logger = true /\
  exists n src, Some ("internal/auth/authenticator.go", 42) = Some (Source debug_entry, n) /\
                In src (Sources (Filter debug_hook)) /\ contains (Source debug_entry) src = true.
Proof.
  apply (source_filter_only_debug debug_logger 0 (Some ("internal/auth/authenticator.go", 42))
           0 0 "DEBUG" "token checked" debug_hook debug_entry).
  - left. reflexivity.
  - discriminate.
  - simpl. intros [E|[]]. discriminate E.
Defined.

Lemma remove_first_equal_witness :
  @RemovePlugin nat plain_plugins [1; 2; 3; 2]%nat 2%nat = ([1; 3; 2]%nat, None).
Proof.
  apply (@remove_first_equal nat plain_plugins [1]%nat [3; 2]%nat 2%nat 2%nat).
  - intros r [<-|[]]. reflexivity.
  - reflexivity.
  - reflexivity.
Defined.

Lemma add_then_remove_witness :
  @AddPlugin nat plain_plugins [1; 2]%nat 5%nat = ([1; 2; 5]%nat, None) /\
  @RemovePlugin nat plain_plugins (fst (@AddPlugin nat plain_plugins [1; 2]%nat 5%nat)) 5%nat =
    ([1; 2]%nat, None).
Proof.
  apply (@add_then_remove nat plain_plugins [1; 2]%nat 5%nat); try reflexivity.
  intros q [<-|[<-|[]]]; reflexivity.
Defined.

Lemma default_request_last_hundred_witness :
  GetLogs (2 ^ 30) 0 0 0 "logs/app.log" (Opened "a" None) (request EmptyString) =
    (if lines_fit "a" then JsonBody false (last_n 100 (scan_lines "a"))
     else HttpError 500 ("Error reading log file: " +++ ErrTooLong)).
Proof. apply default_request_last_hundred; [discriminate | vm_compute; discriminate]. Defined.

Lemma lone_bounds_witness :
  GetLogs (2 ^ 30) 0 0 0 "logs/app.log" (Opened "a" None)
    (set_times (request "text") None (Some sample_instant)) =
    TextBody (filter (in_range 0 0 (Some (sample_instant - hour)) (Some sample_instant)) (scan_lines "a")) /\
  GetLogs (2 ^ 30) 0 0 0 "logs/app.log" (Opened "a" None)
    (set_times (request "text") (Some sample_instant) None) =
    TextBody (filter (in_range 0 0 (Some sample_instant) None) (scan_lines "a")).
Proof. apply lone_bounds; [discriminate | vm_compute; reflexivity]. Defined.

Lemma negative_last_lines_panics_witness :
  GetLogs (2 ^ 30) 0 0 0 "logs/app.log" (Opened EmptyString None)
    (set_last_lines (request "csv") (Some (-1))) = HandlerPanic.
Proof.
  apply negative_last_lines_panics.
  - right. right. right. left. reflexivity.
  - discriminate.
  - lia.
Defined.

Lemma error_precedence_witness :
  GetLogs (2 ^ 30) 0 0 0 "logs/app.log" (Opened EmptyString None) (request "xml") =
    HttpError 400 "Invalid format. Must be one of: json, jsonpretty, csv, text" /\
  GetLogs (2 ^ 30) 0 0 0 EmptyString (OpenFailed "x") (request "json") =
    HttpError 500 "Log file path not available" /\
  GetLogs (2 ^ 30) 0 0 0 "logs/app.log" (OpenFailed "open logs/app.log: permission denied")
    (request "json") =
    HttpError 500 ("Failed to open log file: " +++ "open logs/app.log: permission denied").
Proof.
  destruct (error_precedence (2 ^ 30) 0 0 0 "logs/app.log" (Opened EmptyString None) (request "xml"))
    as [H1 _].
  destruct (error_precedence (2 ^ 30) 0 0 0 EmptyString (OpenFailed "x") (request "json"))
    as [_ [H2 _]].
  destruct (error_precedence (2 ^ 30) 0 0 0 "logs/app.log"
              (OpenFailed "open logs/app.log: permission denied") (request "json")) as [_ [_ H3]].
  split; [apply H1; simpl; intros [E|[E|[E|[E|[E|[]]]]]]; discriminate E|].
  split; [apply H2; [right; left; reflexivity | reflexivity]|].
  apply H3; [right; left; reflexivity | discriminate | reflexivity].
Defined.

(** A 65536-byte line without a newline. *)
Definition long_line : string := string_of_list_ascii (repeat "a"%char 65536).

Lemma scan_error_answers_500_witness :
  GetLogs (2 ^ 30) 0 0 0 "logs/app.log" (Opened long_line None) (request_since_ten "text") =
    HttpError 500 ("Error reading log file: " +++ ErrTooLong) /\
  GetLogs (2 ^ 30) 0 0 0 "logs" (Opened EmptyString (Some "read logs: is a directory"))
    (request_since_ten "text") =
    HttpError 500 ("Error reading log file: " +++ "read logs: is a directory").
Proof.
  assert (Hin : In (Format (request_since_ten "text")) accepted_formats)
    by (right; right; right; right; left; reflexivity).
  assert (Hb : has_time_bound (request_since_ten "text")) by (left; discriminate).
  destruct (scan_error_answers_500 (2 ^ 30) 0 0 0 "logs/app.log" long_line None
              (request_since_ten "text") Hin ltac:(discriminate) Hb) as [H1 _].
  destruct (scan_error_answers_500 (2 ^ 30) 0 0 0 "logs" EmptyString
              (Some "read logs: is a directory") (request_since_ten "text") Hin
              ltac:(discriminate) Hb) as [_ H2].
  split.
  - apply H1. unfold lines_fit.
    rewrite segments_from_no_lf by (vm_compute; reflexivity).
    rewrite empty_append_str. vm_compute. reflexivity.
  - apply (H2 "read logs: is a directory"); reflexivity.
Defined.

Lemma csv_row_of_record_witness :
  csv_row (format_header sample_instant 3600 +++ "[" +++ "WARN" +++ "] " +++ "disk almost full") =
    [[stamp sample_instant 3600; "WARN"; "disk almost full"]].
Proof.
  apply csv_row_of_record.
  - rewrite sample_year. simpl. lia.
  - right. left. reflexivity.
Defined.

Lemma set_debug_handler_witness :
  Debug (SetDebug sample_logger false) 0 (Some ("main.go", 3)) 0 0 "x" = [] /\
  (let '(status, _, l', evs) := SetDebugHandler sample_logger "GET" None 0 None 0 0 in
   (status = 405 \/ status = 400) /\ l' = sample_logger /\ evs = []).
Proof.
  destruct (set_debug_handler sample_logger false 0 None (Some ("main.go", 3)) 0 0 0 0 "x" "GET" None)
    as [Hpost Hget].
  split.
  - cbn [SetDebugHandler negb String.eqb] in Hpost. simpl in Hpost.
    destruct Hpost as (_ & _ & _ & _ & _ & Hoff & _). apply Hoff. reflexivity.
  - apply Hget. left. discriminate.
Defined.

Lemma clock_line_dated_today_witness :
  extractTimestamp sample_instant 3600 (itoa 10 2 +++ ":" +++ itoa 5 2 +++ ":" +++ itoa 0 2 +++ " " +++ "[INFO] up") =
    Some (date 2024 3 9 10 5 0 0 3600).
Proof.
  refine (eq_trans (clock_line_dated_today sample_instant 3600 10 5 0 "[INFO] up" _ _ _) _);
    try lia.
  vm_compute. reflexivity.
Defined.
